(** * ToolsLearning: iterator and generator examples

    A shallow embedding of [iterator_generator/generator_example.py] and
    [iterator_generator/iterator_example.py], and of the registry, the
    listeners and the wrappers of [collections/callable_examples.py] and
    [decorator/basic_decorator.py].

    - Python generators are embedded as resumable bodies: a suspended frame
      records the [yield] the body waits at together with its locals, and the
      generator object protocol ([next], [send], [close]) drives the body.
    - [print] appends a line to an explicit output log.
    - Iterator objects live in a store indexed by object identity, so that
      [CountUpIterable.__iter__] really allocates a new object. *)

From Stdlib Require Import ZArith String List Lia.
From stdpp Require Import base gmap list strings pretty.
Import ListNotations.

Local Open Scope Z_scope.
Local Open Scope string_scope.
Local Open Scope list_scope.

(** ** Python values, exceptions and results *)

(** Standard output: the lines printed so far, oldest first. *)
Definition stdout : Type := list string.

(** Values are [None], booleans, integers, strings, and any other object.
    Of another object the program only ever asks [format(v, '')], once, so
    the object is given by what that call prints and what it returns or
    raises (a [__format__] that returns something else than a [str] raises
    [TypeError]). *)
Inductive py_value : Type :=
  | PyNone
  | PyBool (b : bool)
  | PyInt (z : Z)
  | PyStr (s : string)
  | PyObj (printed : stdout) (result : py_formatted)
with py_formatted : Type :=
  | Formatted (s : string)
  | FormatRaised (e : py_exception)
with py_exception : Type :=
  | StopIteration (value : py_value)
  | GeneratorExit
  | TypeError (msg : string)
  | RuntimeError (msg : string)
  | ValueError (msg : string)
  | OtherError (cls : string) (msg : string).

(** [v is None] *)
Definition is_None (v : py_value) : bool :=
  match v with
  | PyNone => true
  | _ => false
  end.

(** [sys.int_info.default_max_str_digits]: an integer of more decimal
    digits is not converted to a string. *)
Definition int_max_str_digits : Z := 4300.

Definition int_max_str_digits_msg : string :=
  "Exceeds the limit (4300 digits) for integer string conversion; use sys.set_int_max_str_digits() to increase the limit".

(** [format(v, '')], the conversion used by an f-string field [{v}]: the
    lines it prints, and the string it returns or the exception it
    raises. *)
Definition py_format (v : py_value) : stdout * py_formatted :=
  match v with
  | PyNone => ([], Formatted "None")
  | PyBool true => ([], Formatted "True")
  | PyBool false => ([], Formatted "False")
  | PyInt z =>
      if (Z.abs z >=? 10 ^ int_max_str_digits)%Z
      then ([], FormatRaised (ValueError int_max_str_digits_msg))
      else ([], Formatted (pretty z))
  | PyStr s => ([], Formatted s)
  | PyObj printed result => (printed, result)
  end.

Inductive py_result : Type :=
  | Return (v : py_value)
  | Raise (e : py_exception).

(** ** The generator object protocol *)

Module Generator.

Section Protocol.

(** A suspended frame: which [yield] the body is parked at, and its locals. *)
Variable frame : Type.

(** What the driver hands to a parked body. *)
Inductive signal : Type :=
  | Send (v : py_value)
  | Throw (e : py_exception).

(** How a run of the body ends: at the next [yield], by [return], or by an
    exception leaving the body. *)
Inductive outcome : Type :=
  | Yield (v : py_value) (k : frame)
  | Done (v : py_value)
  | Fail (e : py_exception).

Record body : Type := {
  start : stdout * outcome;
  resume : frame -> signal -> stdout * outcome
}.

Inductive gen_state : Type :=
  | GEN_CREATED
  | GEN_SUSPENDED (k : frame)
  | GEN_CLOSED.

Definition just_started_msg : string :=
  "can't send non-None value to a just-started generator".

(** A [StopIteration] escaping the body is replaced (PEP 479). *)
Definition pep479 (e : py_exception) : py_exception :=
  match e with
  | StopIteration _ => RuntimeError "generator raised StopIteration"
  | _ => e
  end.

Definition deliver (r : stdout * outcome) : py_result * gen_state * stdout :=
  match r with
  | (out, Yield v k) => (Return v, GEN_SUSPENDED k, out)
  | (out, Done v) => (Raise (StopIteration v), GEN_CLOSED, out)
  | (out, Fail e) => (Raise (pep479 e), GEN_CLOSED, out)
  end.

Variable b : body.

(** [g.send(v)] *)
Definition gen_send (g : gen_state) (v : py_value)
  : py_result * gen_state * stdout :=
  match g with
  | GEN_CREATED =>
      if is_None v then deliver (start b)
      else (Raise (TypeError just_started_msg), GEN_CREATED, [])
  | GEN_SUSPENDED k => deliver (resume b k (Send v))
  | GEN_CLOSED => (Raise (StopIteration PyNone), GEN_CLOSED, [])
  end.

(** [next(g)] *)
Definition gen_next (g : gen_state) : py_result * gen_state * stdout :=
  gen_send g PyNone.

(** [g.close()]; also what happens when the object is abandoned. *)
Definition gen_close (g : gen_state) : py_result * gen_state * stdout :=
  match g with
  | GEN_CREATED => (Return PyNone, GEN_CLOSED, [])
  | GEN_SUSPENDED k =>
      match resume b k (Throw GeneratorExit) with
      | (out, Yield _ k') =>
          (Raise (RuntimeError "generator ignored GeneratorExit"),
           GEN_SUSPENDED k', out)
      | (out, Done _) => (Return PyNone, GEN_CLOSED, out)
      | (out, Fail GeneratorExit) => (Return PyNone, GEN_CLOSED, out)
      | (out, Fail e) => (Raise (pep479 e), GEN_CLOSED, out)
      end
  | GEN_CLOSED => (Return PyNone, GEN_CLOSED, [])
  end.

(** Driver operations and their execution in sequence. *)
Inductive op : Type :=
  | OpNext
  | OpSend (v : py_value)
  | OpClose.

Definition run_op (g : gen_state) (o : op) : py_result * gen_state * stdout :=
  match o with
  | OpNext => gen_next g
  | OpSend v => gen_send g v
  | OpClose => gen_close g
  end.

Fixpoint run_ops (g : gen_state) (os : list op)
  : list py_result * gen_state * stdout :=
  match os with
  | [] => ([], g, [])
  | o :: os' =>
      let '(r, g1, out1) := run_op g o in
      let '(rs, g2, out2) := run_ops g1 os' in
      (r :: rs, g2, out1 ++ out2)
  end.

(** The generator after each operation of a run, the initial one first. *)
Fixpoint gen_trace (g : gen_state) (os : list op) : list gen_state :=
  match os with
  | [] => [g]
  | o :: os' => g :: gen_trace (run_op g o).1.2 os'
  end.

(** [list(g)]: call [next] until [StopIteration]; [fuel] bounds the number
    of calls, [None] means the bound was reached first. *)
Fixpoint gen_list (fuel : nat) (g : gen_state)
  : option (py_result * list py_value * gen_state * stdout) :=
  match fuel with
  | O => None
  | S fuel' =>
      match gen_next g with
      | (Return v, g1, out1) =>
          match gen_list fuel' g1 with
          | Some (r, vs, g2, out2) => Some (r, v :: vs, g2, out1 ++ out2)
          | None => None
          end
      | (Raise (StopIteration _), g1, out1) =>
          Some (Return PyNone, [], g1, out1)
      | (Raise e, g1, out1) => Some (Raise e, [], g1, out1)
      end
  end.

End Protocol.

Arguments Yield {frame} v k.
Arguments Done {frame} v.
Arguments Fail {frame} e.
Arguments GEN_CREATED {frame}.
Arguments GEN_SUSPENDED {frame} k.
Arguments GEN_CLOSED {frame}.
Arguments start {frame} b.
Arguments resume {frame} b k s.
Arguments deliver {frame} r.
Arguments gen_send {frame} b g v.
Arguments gen_next {frame} b g.
Arguments gen_close {frame} b g.
Arguments run_op {frame} b g o.
Arguments run_ops {frame} b g os.
Arguments gen_trace {frame} b g os.
Arguments gen_list {frame} b fuel g.

End Generator.

Import Generator.

(** ** [coroutine_echo] *)

Module CoroutineEcho.

(** The two [yield] expressions of the body. At the second one the local
    [val] holds the value received last. *)
Inductive echo_frame : Type :=
  | at_ready
  | at_got (val : py_value).

Definition finally_line : string := "coroutine_echo: generator closed".

(** One turn of [while True] with [val] bound, up to the next suspension;
    leaving through [return], or through an exception raised while the
    f-string is evaluated, runs the [finally] clause. *)
Definition echo_loop (val : py_value) : stdout * outcome echo_frame :=
  if is_None val then ([finally_line], Done (PyStr "closed"))
  else
    match py_format val with
    | (out, Formatted s) => (out, Yield (PyStr ("got " +:+ s)) (at_got val))
    | (out, FormatRaised e) => (out ++ [finally_line], Fail e)
    end.

Definition echo_resume (k : echo_frame) (s : signal)
  : stdout * outcome echo_frame :=
  match s with
  | Send v => echo_loop v
  | Throw e => ([finally_line], Fail e)
  end.

Definition coroutine_echo : body echo_frame := {|
  start := ([], Yield (PyStr "ready") at_ready);
  resume := echo_resume
|}.

(** The session states of the specification, read off the generator. *)
Inductive session_state : Type := NotStarted | Ready | Active | Closed.

Definition state_of (g : gen_state echo_frame) : session_state :=
  match g with
  | GEN_CREATED => NotStarted
  | GEN_SUSPENDED at_ready => Ready
  | GEN_SUSPENDED (at_got _) => Active
  | GEN_CLOSED => Closed
  end.

Definition primed (g : gen_state echo_frame) : Prop :=
  state_of g = Ready \/ state_of g = Active.

(** The two ways a call can fail. [StopIteration] is the signal that no
    further value is produced; any other exception is a refusal of the
    call, and the protocol has one for calls made in the wrong state. *)
Definition is_Exhausted (r : py_result) : bool :=
  match r with
  | Raise (StopIteration _) => true
  | _ => false
  end.

Definition is_InvalidStateError (r : py_result) : bool :=
  match r with
  | Raise (StopIteration _) => false
  | Raise _ => true
  | Return _ => false
  end.

(** How often the [finally] clause has run, counted on the output. *)
Definition finalizations (out : stdout) : nat :=
  count_occ string_dec out finally_line.

(** The lines that formatting the value of a [send] prints. *)
Definition op_prints (o : op) : stdout :=
  match o with
  | OpSend v => (py_format v).1
  | _ => []
  end.

(** The session operations, as [demo_send_close] performs them. *)
Definition prime (g : gen_state echo_frame) := gen_next coroutine_echo g.
Definition resume_with (g : gen_state echo_frame) (v : py_value) :=
  gen_send coroutine_echo g v.
Definition close (g : gen_state echo_frame) := gen_close coroutine_echo g.

End CoroutineEcho.

(** ** [countdown] *)

Module Countdown.

(** The single [yield n] of the loop body, with the local [n]. *)
Inductive countdown_frame : Type :=
  | at_yield (n : Z).

Definition started_line : string := "generator countdown() started".
Definition finished_line : string := "generator countdown() finished".

(** The test [while n > 0] and what follows it up to the next suspension. *)
Definition countdown_loop (n : Z) : stdout * outcome countdown_frame :=
  if (n >? 0)%Z then ([], Yield (PyInt n) (at_yield n))
  else ([finished_line], Done PyNone).

(** Resuming after [yield n] runs [n -= 1] and tests again; the value sent
    is dropped, and a thrown exception leaves the body at once. *)
Definition countdown_resume (k : countdown_frame) (s : signal)
  : stdout * outcome countdown_frame :=
  match k, s with
  | at_yield n, Send _ => countdown_loop (n - 1)
  | at_yield _, Throw e => ([], Fail e)
  end.

Definition countdown (n : Z) : body countdown_frame := {|
  start := let '(out, o) := countdown_loop n in (started_line :: out, o);
  resume := countdown_resume
|}.

(** [n, n-1, ..., 1] *)
Definition down_from (n : Z) : list Z := reverse (seqZ 1 n).

End Countdown.

(** ** [CountUpIterator] and [CountUpIterable] *)

Module CountUp.

Record CountUpIterator : Type := {
  max : Z;
  current : Z
}.

Definition __init__ (max_inclusive : Z) : CountUpIterator :=
  {| max := max_inclusive; current := 0 |}.

(** [__next__] on the object's fields: the result and the fields after. *)
Definition __next__ (self : CountUpIterator) : py_result * CountUpIterator :=
  if (current self >=? max self)%Z then (Raise (StopIteration PyNone), self)
  else
    let self' := {| max := max self; current := current self + 1 |} in
    (Return (PyInt (current self')), self').

(** [k] calls of [__next__] in a row on the same object. *)
Fixpoint next_times (k : nat) (self : CountUpIterator)
  : list py_result * CountUpIterator :=
  match k with
  | O => ([], self)
  | S k' =>
      let '(r, self1) := __next__ self in
      let '(rs, self2) := next_times k' self1 in
      (r :: rs, self2)
  end.

(** Iterator objects are mutable and have an identity: they live in a
    store. The iterable only holds [max], which is never assigned again. *)
Definition loc : Type := nat.

Record CountUpIterable : Type := {
  iterable_max : Z
}.

Definition alloc (o : CountUpIterator) (h : gmap loc CountUpIterator)
  : loc * gmap loc CountUpIterator :=
  let l := fresh (dom h) in (l, <[l := o]> h).

(** [CountUpIterable.__iter__]: a new [CountUpIterator(self.max)]. *)
Definition iterable_iter (self : CountUpIterable) (h : gmap loc CountUpIterator)
  : loc * gmap loc CountUpIterator :=
  alloc (__init__ (iterable_max self)) h.

(** [CountUpIterator.__iter__]: the object itself. *)
Definition __iter__ (self : loc) : loc := self.

(** [next(it)] on the object at [l]; [None] if there is no such object. *)
Definition next_at (l : loc) (h : gmap loc CountUpIterator)
  : option (py_result * gmap loc CountUpIterator) :=
  match h !! l with
  | None => None
  | Some self =>
      let '(r, self') := __next__ self in Some (r, <[l := self']> h)
  end.

(** The loop of [list(...)] and of [for v in it]: [next] until it raises. *)
Fixpoint drain (fuel : nat) (l : loc) (h : gmap loc CountUpIterator)
  : option (list py_value * gmap loc CountUpIterator) :=
  match fuel with
  | O => None
  | S fuel' =>
      match next_at l h with
      | None => None
      | Some (Return v, h1) =>
          match drain fuel' l h1 with
          | Some (vs, h2) => Some (v :: vs, h2)
          | None => None
          end
      | Some (Raise _, h1) => Some ([], h1)
      end
  end.

(** [list(iterable)] *)
Definition list_of (fuel : nat) (self : CountUpIterable)
    (h : gmap loc CountUpIterator)
  : option (list py_value * gmap loc CountUpIterator) :=
  let '(l, h1) := iterable_iter self h in drain fuel (__iter__ l) h1.

(** [list(iterable)] evaluated [n] times, one after the other. *)
Fixpoint passes (n : nat) (fuel : nat) (self : CountUpIterable)
    (h : gmap loc CountUpIterator)
  : option (list (list py_value) * gmap loc CountUpIterator) :=
  match n with
  | O => Some ([], h)
  | S n' =>
      match list_of fuel self h with
      | None => None
      | Some (vs, h1) =>
          match passes n' fuel self h1 with
          | None => None
          | Some (vss, h2) => Some (vs :: vss, h2)
          end
      end
  end.

End CountUp.

(** ** [collections/callable_examples.py]: registry, listeners, [retry] *)

Module Callables.

(** How a call ends. *)
Inductive called (V E : Type) : Type :=
  | Returned (v : V)
  | Raised (e : E).

Arguments Returned {V E} v.
Arguments Raised {V E} e.

Section Calls.

(** What a call can read and change besides its arguments (the output, the
    random source, ...), the arguments [*args, **kwargs], which the
    functions here pass on as they are, the objects returned and the
    exceptions raised. *)
Variable world : Type.
Variable args : Type.
Variable value : Type.
Variable exn : Type.

(** [isinstance(e, Exception)]: what [except Exception] catches. *)
Variable is_Exception : exn -> bool.

(** [KeyError(msg)], and the [TypeError] that [raise None] raises. *)
Variable key_error : string -> exn.
Variable raise_none_error : exn.

(** A callable applied in a world: how the call ends, and the world after.
    The registered callables do not reach the module's [registry]. *)
Definition callable : Type := args -> world -> called value exn * world.

(** [registry[name] = fn] *)
Definition register (name : string) (fn : callable)
    (registry : gmap string callable) : gmap string callable :=
  <[name := fn]> registry.

Definition unregistered_msg (name : string) : string :=
  "命令未注册: " +:+ name.

Definition run_command (name : string) (a : args)
    (registry : gmap string callable) (w : world)
  : called value exn * world :=
  match registry !! name with
  | None => (Raised (key_error (unregistered_msg name)), w)
  | Some fn => fn a w
  end.

(** A series of [register] calls, the first of the list first. *)
Definition register_all (l : list (string * callable))
    (registry : gmap string callable) : gmap string callable :=
  foldl (fun reg p => register p.1 p.2 reg) registry l.

#[local] Set Warnings "-register-all".

(** A listener is called with the message and returns [None]. During the
    call it may add listeners to the module's list with [add_listener]: the
    call gives them, in the order they were added. *)
Inductive listener : Type :=
  | Listener
      (call : string -> world -> called unit exn * world * list listener).

Definition call (l : listener)
  : string -> world -> called unit exn * world * list listener :=
  match l with
  | Listener c => c
  end.

(** [listeners.append(fn)] *)
Definition add_listener (fn : listener) (listeners : list listener)
  : list listener :=
  listeners ++ [fn].

(** The list after the [add_listener] calls made during one call. *)
Definition add_listeners (added : list listener) (listeners : list listener)
  : list listener :=
  foldl (fun ls fn => add_listener fn ls) listeners added.

(** [for l in listeners: l(msg)]. The loop reads the module's list by index,
    so it also reaches the listeners added while it runs; at index [i], with
    [fuel] bounding the number of steps ([None] if that is not enough). The
    list at the end is returned too. *)
Fixpoint emit_loop (fuel : nat) (listeners : list listener) (i : nat)
    (msg : string) (w : world)
  : option (called unit exn * world * list listener) :=
  match fuel with
  | O => None
  | S fuel' =>
      match listeners !! i with
      | None => Some (Returned tt, w, listeners)
      | Some l =>
          match call l msg w with
          | (Returned _, w', added) =>
              emit_loop fuel' (add_listeners added listeners) (S i) msg w'
          | (Raised e, w', added) =>
              Some (Raised e, w', add_listeners added listeners)
          end
      end
  end.

Definition emit_event (fuel : nat) (listeners : list listener)
    (msg : string) (w : world)
  : option (called unit exn * world * list listener) :=
  emit_loop fuel listeners 0 msg w.

(** The [wrapper] of [retry(times)(fn)]: the loop over [range(times)] with
    [n] rounds left and the local [last_exc], then [raise last_exc]. *)
Fixpoint retry_loop (fn : callable) (a : args) (n : nat)
    (last_exc : option exn) (w : world) : called value exn * world :=
  match n with
  | O =>
      (Raised (match last_exc with
               | Some e => e
               | None => raise_none_error
               end), w)
  | S n' =>
      match fn a w with
      | (Returned v, w') => (Returned v, w')
      | (Raised e, w') =>
          if is_Exception e then retry_loop fn a n' (Some e) w'
          else (Raised e, w')
      end
  end.

Definition retry (times : Z) (fn : callable) : callable :=
  fun a w => retry_loop fn a (Z.to_nat times) None w.

(** The call number [k] (from [0]) of a series of calls of [fn] made one
    after the other with the same arguments. *)
Fixpoint call_again (fn : callable) (a : args) (k : nat) (w : world)
  : called value exn * world :=
  match k with
  | O => fn a w
  | S k' => call_again fn a k' (fn a w).2
  end.

(** The call raised something that [except Exception] catches. *)
Definition caught (r : called value exn) : bool :=
  match r with
  | Returned _ => false
  | Raised e => is_Exception e
  end.

End Calls.

Arguments register {world args value exn} name fn registry.
Arguments run_command {world args value exn} key_error name a registry w.
Arguments register_all {world args value exn} l registry.
Arguments Listener {world exn} call.
Arguments call {world exn} l.
Arguments add_listener {world exn} fn listeners.
Arguments add_listeners {world exn} added listeners.
Arguments emit_loop {world exn} fuel listeners i msg w.
Arguments emit_event {world exn} fuel listeners msg w.
Arguments retry_loop {world args value exn} is_Exception raise_none_error
  fn a n last_exc w.
Arguments retry {world args value exn} is_Exception raise_none_error
  times fn a w.
Arguments call_again {world args value exn} fn a k w.
Arguments caught {value exn} is_Exception r.

End Callables.

(** ** [decorator/basic_decorator.py]: [my_decorator] and [repeat] *)

Module Decorators.

Import Callables.

Section Wrappers.

Variable world : Type.
Variable args : Type.
Variable exn : Type.

Definition before_line : string := "执行函数前的准备".
Definition after_line : string := "执行函数后的清理".

(** A function applied in a world gives how the call ends, the world after,
    and the lines it printed. The [wrapper] of [my_decorator(func)] takes no
    arguments and has no [return]. *)
Definition my_decorator {V : Type}
    (func : world -> called V exn * world * stdout)
  : world -> called unit exn * world * stdout :=
  fun w =>
    match func w with
    | (Returned _, w', out) => (Returned tt, w', before_line :: out ++ [after_line])
    | (Raised e, w', out) => (Raised e, w', before_line :: out)
    end.

(** [f"第 {i+1} 次执行:"] *)
Definition round_line (i : Z) : string :=
  "第 " +:+ pretty (i + 1) +:+ " 次执行:".

(** The loop of the [wrapper] of [repeat(times)(func)], at index [i] with
    [n] rounds left. *)
Fixpoint repeat_loop {V : Type}
    (func : args -> world -> called V exn * world * stdout)
    (a : args) (i : Z) (n : nat) (w : world)
  : called unit exn * world * stdout :=
  match n with
  | O => (Returned tt, w, [])
  | S n' =>
      match func a w with
      | (Returned _, w', out) =>
          let '(r, w'', out') := repeat_loop func a (i + 1) n' w' in
          (r, w'', round_line i :: out ++ out')
      | (Raised e, w', out) => (Raised e, w', round_line i :: out)
      end
  end.

Definition repeat {V : Type} (times : Z)
    (func : args -> world -> called V exn * world * stdout)
  : args -> world -> called unit exn * world * stdout :=
  fun a w => repeat_loop func a 0 (Z.to_nat times) w.

(** [greet(name)] *)
Definition greet (name : string) (w : world)
  : called unit exn * world * stdout :=
  (Returned tt, w, ["  你好，" +:+ name +:+ "！"]).

End Wrappers.

Arguments my_decorator {world exn V} func w.
Arguments repeat_loop {world args exn V} func a i n w.
Arguments repeat {world args exn V} times func a w.
Arguments greet {world exn} name w.

End Decorators.

(** * Properties *)

(** ** The generator protocol, for any body *)

Module GeneratorFacts.

Section Closed.

Context {frame : Type} (b : body frame).

Lemma run_op_closed (o : op) :
  run_op b GEN_CLOSED o =
    (match o with
     | OpClose => Return PyNone
     | _ => Raise (StopIteration PyNone)
     end, GEN_CLOSED, []).
Proof. destruct o; reflexivity. Qed.

Lemma run_ops_closed (os : list op) :
  (run_ops b GEN_CLOSED os).1.2 = GEN_CLOSED /\ (run_ops b GEN_CLOSED os).2 = [].
Proof.
  induction os as [|o os [IHg IHout]]; [done|].
  cbn [run_ops]. rewrite run_op_closed.
  destruct (run_ops b GEN_CLOSED os) as [[rs g2] out2].
  simpl in *. by subst.
Qed.

Lemma gen_trace_closed (os : list op) (g : gen_state frame) :
  g ∈ gen_trace b GEN_CLOSED os -> g = GEN_CLOSED.
Proof.
  induction os as [|o os IH]; cbn [gen_trace].
  - by intros ->%list_elem_of_singleton.
  - rewrite run_op_closed. cbn. intros [->|Hin]%elem_of_cons; auto.
Qed.

Lemma gen_trace_length (os : list op) (g : gen_state frame) :
  length (gen_trace b g os) = S (length os).
Proof. revert g. induction os as [|o os IH]; intros g; cbn; auto. Qed.

(** Dropping the first [i] states of a trace gives the trace of the rest of
    the run from the [i]-th state. *)
Lemma gen_trace_drop (os : list op) (g gi : gen_state frame) (i : nat) :
  gen_trace b g os !! i = Some gi ->
  drop i (gen_trace b g os) = gen_trace b gi (drop i os).
Proof.
  revert g i. induction os as [|o os IH]; intros g [|i] H; cbn in *.
  - by injection H as ->.
  - by destruct i.
  - by injection H as ->.
  - by apply IH.
Qed.

(** Once closed, always closed: every later state of the run is closed. *)
Lemma gen_trace_closed_after (os : list op) (g gi gj : gen_state frame)
    (i j : nat) :
  gen_trace b g os !! i = Some gi -> gi = GEN_CLOSED -> (i <= j)%nat ->
  gen_trace b g os !! j = Some gj -> gj = GEN_CLOSED.
Proof.
  intros Hi -> Hij Hj.
  apply gen_trace_drop in Hi.
  apply (gen_trace_closed (drop i os)).
  rewrite <- Hi. apply list_elem_of_lookup. exists (j - i)%nat.
  rewrite lookup_drop. by replace (i + (j - i))%nat with j by lia.
Qed.

End Closed.

End GeneratorFacts.

(** ** [coroutine_echo] as an exchange session *)

Module CoroutineEchoFacts.

Import CoroutineEcho GeneratorFacts.

Lemma closed_inv (g : gen_state echo_frame) :
  state_of g = Closed -> g = GEN_CLOSED.
Proof. by destruct g as [|[|val]|]. Qed.

Lemma not_started_inv (g : gen_state echo_frame) :
  state_of g = NotStarted -> g = GEN_CREATED.
Proof. by destruct g as [|[|val]|]. Qed.

Lemma primed_inv (g : gen_state echo_frame) :
  primed g -> exists k, g = GEN_SUSPENDED k.
Proof. destruct g as [|k|]; intros [H|H]; try discriminate H; by exists k. Qed.

Lemma resume_suspended (k : echo_frame) (v : py_value) :
  resume_with (GEN_SUSPENDED k) v = deliver (echo_loop v).
Proof. reflexivity. Qed.

(** Formatting an integer, by its size. *)
Lemma py_format_int (z : Z) :
  Z.abs z < 10 ^ 4300 -> py_format (PyInt z) = ([], Formatted (pretty z)).
Proof.
  intros Hz. unfold py_format. change int_max_str_digits with 4300.
  by rewrite Z.geb_leb, (proj2 (Z.leb_gt _ _) Hz).
Qed.

Lemma py_format_int_big (z : Z) :
  10 ^ 4300 <= Z.abs z ->
  py_format (PyInt z) =
    ([], FormatRaised (ValueError int_max_str_digits_msg)).
Proof.
  intros Hz. unfold py_format. change int_max_str_digits with 4300.
  by rewrite Z.geb_leb, (proj2 (Z.leb_le _ _) Hz).
Qed.

Lemma below_limit (z : Z) : Z.abs z < 10 ^ 18 -> Z.abs z < 10 ^ 4300.
Proof.
  intros Hz. eapply Z.lt_le_trans; [exact Hz|].
  apply Z.pow_le_mono_r; [reflexivity|discriminate].
Qed.

Lemma echo_loop_formatted (v : py_value) (out : stdout) (s : string) :
  v <> PyNone -> py_format v = (out, Formatted s) ->
  echo_loop v = (out, Yield (PyStr ("got " +:+ s)) (at_got v)).
Proof.
  intros Hv Hf. unfold echo_loop. rewrite Hf. by destruct v.
Qed.

Lemma echo_loop_raised (v : py_value) (out : stdout) (e : py_exception) :
  v <> PyNone -> py_format v = (out, FormatRaised e) ->
  echo_loop v = (out ++ [finally_line], Fail e).
Proof.
  intros Hv Hf. unfold echo_loop. rewrite Hf. by destruct v.
Qed.

Lemma sends_closed (vs : list py_value) :
  run_ops coroutine_echo GEN_CLOSED (OpSend <$> vs) =
    (replicate (length vs) (Raise (StopIteration PyNone)), GEN_CLOSED, []).
Proof.
  induction vs as [|v vs IH]; [done|].
  change (OpSend <$> v :: vs) with (OpSend v :: (OpSend <$> vs)).
  cbn [run_ops run_op gen_send]. by rewrite IH.
Qed.

(** The run of [demo_send_close], and two runs that abandon the session. *)
Example demo_send_close_run :
  run_ops coroutine_echo GEN_CREATED
    [OpNext; OpSend (PyStr "A"); OpSend (PyStr "B"); OpSend PyNone; OpNext] =
  ([Return (PyStr "ready"); Return (PyStr "got A"); Return (PyStr "got B");
    Raise (StopIteration (PyStr "closed")); Raise (StopIteration PyNone)],
   GEN_CLOSED, [finally_line]).
Proof. reflexivity. Qed.

Example close_while_parked :
  run_ops coroutine_echo GEN_CREATED [OpNext; OpSend (PyInt (-15)); OpClose; OpClose] =
  ([Return (PyStr "ready"); Return (PyStr "got -15"); Return PyNone; Return PyNone],
   GEN_CLOSED, [finally_line]).
Proof.
  cbn [run_ops run_op gen_next gen_send gen_close is_None start resume
       coroutine_echo echo_resume deliver].
  rewrite (echo_loop_formatted (PyInt (-15)) [] "-15");
    [reflexivity|discriminate|].
  apply (py_format_int (-15)), below_limit. reflexivity.
Qed.

Example close_before_start :
  run_ops coroutine_echo GEN_CREATED [OpClose; OpNext] =
  ([Return PyNone; Raise (StopIteration PyNone)], GEN_CLOSED, []).
Proof. reflexivity. Qed.

(** C1. On a closed session every [resume] raises [StopIteration] without a
    value: the result is the exhaustion signal, it is never a returned value
    (so no value produced earlier can come back), the session stays closed
    and nothing is printed; the same holds for any series of such calls. *)
Theorem resume_after_closed_is_exhausted
    (g : gen_state echo_frame) (v : py_value) (vs : list py_value) :
  state_of g = Closed ->
  resume_with g v = (Raise (StopIteration PyNone), g, []) /\
  is_Exhausted (resume_with g v).1.1 = true /\
  (forall x, (resume_with g v).1.1 <> Return x) /\
  run_ops coroutine_echo g (OpSend <$> vs) =
    (replicate (length vs) (Raise (StopIteration PyNone)), g, []).
Proof.
  intros ->%closed_inv. repeat split; [done|apply sends_closed].
Qed.

Lemma resume_after_closed_is_exhausted_witness :
  state_of (resume_with (GEN_SUSPENDED (at_got (PyStr "B"))) PyNone).1.2 = Closed /\
  resume_with (resume_with (GEN_SUSPENDED (at_got (PyStr "B"))) PyNone).1.2
    (PyStr "C") = (Raise (StopIteration PyNone), GEN_CLOSED, []).
Proof.
  split; [reflexivity|].
  apply (resume_after_closed_is_exhausted
           (resume_with (GEN_SUSPENDED (at_got (PyStr "B"))) PyNone).1.2
           (PyStr "C") [PyInt 1; PyNone]).
  reflexivity.
Defined.

(** C2, as stated, fails: a value whose formatting raises is not echoed.
    An integer of 4301 digits makes the f-string raise [ValueError]; the
    exception leaves [resume], the [finally] line is printed and the
    session is closed. *)
Lemma resume_echoes_counterexample :
  primed (GEN_SUSPENDED at_ready) /\
  PyInt (10 ^ 4300) <> PyNone /\
  resume_with (GEN_SUSPENDED at_ready) (PyInt (10 ^ 4300)) =
    (Raise (ValueError int_max_str_digits_msg), GEN_CLOSED, [finally_line]) /\
  ~ (forall (g : gen_state echo_frame) (v : py_value),
        primed g -> v <> PyNone ->
        (exists s, (resume_with g v).1.1 = Return (PyStr s)) /\
        state_of (resume_with g v).1.2 = Active).
Proof.
  assert (resume_with (GEN_SUSPENDED at_ready) (PyInt (10 ^ 4300)) =
    (Raise (ValueError int_max_str_digits_msg), GEN_CLOSED, [finally_line]))
    as Hrun.
  { rewrite resume_suspended.
    rewrite (echo_loop_raised (PyInt (10 ^ 4300)) []
               (ValueError int_max_str_digits_msg)); [reflexivity|discriminate|].
    apply py_format_int_big.
    rewrite Z.abs_eq by (apply Z.pow_nonneg; discriminate).
    apply Z.le_refl. }
  split; [left; reflexivity|]. split; [discriminate|]. split; [exact Hrun|].
  intros H.
  destruct (H (GEN_SUSPENDED at_ready) (PyInt (10 ^ 4300))) as [_ Hst];
    [left; reflexivity|discriminate|].
  rewrite Hrun in Hst. discriminate Hst.
Qed.

(** C2, amended. On a primed session (parked at either [yield]), [resume]
    with a value other than [None] whose formatting returns a string [s]
    returns ["got "] followed by [s], prints only what the formatting
    printed, and leaves the session in state [Active]. That is so for every
    string (the string itself), boolean ([True], [False]) and integer of at
    most 4300 digits (its decimal numeral), and nothing is printed then. If
    the formatting raises, the exception leaves [resume], the [finally] line
    is printed and the session is [Closed]. *)
Theorem resume_echoes (g : gen_state echo_frame) (v : py_value) :
  primed g -> v <> PyNone ->
  (forall (out : stdout) (s : string),
     py_format v = (out, Formatted s) ->
     resume_with g v =
       (Return (PyStr ("got " +:+ s)), GEN_SUSPENDED (at_got v), out) /\
     state_of (resume_with g v).1.2 = Active) /\
  (forall s : string,
     v = PyStr s ->
     resume_with g v =
       (Return (PyStr ("got " +:+ s)), GEN_SUSPENDED (at_got v), [])) /\
  (forall z : Z,
     v = PyInt z -> Z.abs z < 10 ^ 4300 ->
     resume_with g v =
       (Return (PyStr ("got " +:+ pretty z)), GEN_SUSPENDED (at_got v), [])) /\
  (forall b : bool,
     v = PyBool b ->
     resume_with g v =
       (Return (PyStr (if b then "got True" else "got False")),
        GEN_SUSPENDED (at_got v), [])) /\
  (forall (out : stdout) (e : py_exception),
     py_format v = (out, FormatRaised e) ->
     resume_with g v = (Raise (pep479 e), GEN_CLOSED, out ++ [finally_line]) /\
     state_of (resume_with g v).1.2 = Closed).
Proof.
  intros [k ->]%primed_inv Hv. rewrite !resume_suspended. split_and!.
  - intros out s Hf. by rewrite (echo_loop_formatted v out s Hv Hf).
  - intros s ->. by rewrite (echo_loop_formatted (PyStr s) [] s).
  - intros z -> Hz.
    by rewrite (echo_loop_formatted (PyInt z) [] (pretty z) Hv (py_format_int z Hz)).
  - intros b ->. by destruct b.
  - intros out e Hf. by rewrite (echo_loop_raised v out e Hv Hf).
Qed.

Lemma resume_echoes_witness :
  primed (GEN_SUSPENDED at_ready) /\ PyInt (-15) <> PyNone /\
  Z.abs (-15) < 10 ^ 4300 /\
  resume_with (GEN_SUSPENDED at_ready) (PyInt (-15)) =
    (Return (PyStr "got -15"), GEN_SUSPENDED (at_got (PyInt (-15))), []) /\
  resume_with (GEN_SUSPENDED (at_got (PyInt (-15)))) (PyStr "A") =
    (Return (PyStr "got A"), GEN_SUSPENDED (at_got (PyStr "A")), []).
Proof.
  split; [left; reflexivity|]. split; [discriminate|].
  assert (Z.abs (-15) < 10 ^ 4300) as Hsmall
    by (apply below_limit; reflexivity).
  split; [exact Hsmall|]. split.
  - destruct (resume_echoes (GEN_SUSPENDED at_ready) (PyInt (-15)))
      as (_ & _ & Hint & _); [left; reflexivity|discriminate|].
    apply (Hint (-15)); [reflexivity|exact Hsmall].
  - destruct (resume_echoes (GEN_SUSPENDED (at_got (PyInt (-15)))) (PyStr "A"))
      as (_ & Hstr & _); [right; reflexivity|discriminate|].
    apply (Hstr "A"). reflexivity.
Defined.

(** C3. On a primed session, [resume] with [None] raises [StopIteration]
    carrying ['closed'], leaves the session [Closed] and prints the [finally]
    line; whatever operations follow ([next], [send], [close], in any number
    and order), the line is in the output of the whole run exactly once. *)
Theorem sentinel_closes_and_finalizes_once
    (g : gen_state echo_frame) (os : list op) :
  primed g ->
  resume_with g PyNone =
    (Raise (StopIteration (PyStr "closed")), GEN_CLOSED, [finally_line]) /\
  state_of (resume_with g PyNone).1.2 = Closed /\
  finalizations (run_ops coroutine_echo g (OpSend PyNone :: os)).2 = 1%nat.
Proof.
  intros [k ->]%primed_inv. repeat split.
  cbn [run_ops run_op]. rewrite resume_suspended. cbn [echo_loop is_None deliver].
  destruct (run_ops_closed coroutine_echo os) as [_ Hout].
  destruct (run_ops coroutine_echo GEN_CLOSED os) as [[rs g2] out2].
  simpl in Hout. subst out2. reflexivity.
Qed.

Lemma sentinel_closes_and_finalizes_once_witness :
  primed (GEN_SUSPENDED (at_got (PyStr "B"))) /\
  finalizations
    (run_ops coroutine_echo (GEN_SUSPENDED (at_got (PyStr "B")))
       [OpSend PyNone; OpClose; OpNext; OpClose]).2 = 1%nat.
Proof.
  split; [right; reflexivity|].
  apply (sentinel_closes_and_finalizes_once
           (GEN_SUSPENDED (at_got (PyStr "B"))) [OpClose; OpNext; OpClose]).
  right; reflexivity.
Defined.

(** C4, as stated, fails: on a session that has not started, [resume] with
    [None] is accepted and does what [prime] does. *)
Lemma resume_before_prime_counterexample :
  resume_with GEN_CREATED PyNone =
    (Return (PyStr "ready"), GEN_SUSPENDED at_ready, []) /\
  ~ (forall (g : gen_state echo_frame) (v : py_value),
        state_of g = NotStarted ->
        is_InvalidStateError (resume_with g v).1.1 = true).
Proof.
  split; [reflexivity|].
  intros H. specialize (H GEN_CREATED PyNone eq_refl). discriminate H.
Qed.

(** C4, amended. On a session that has not started, [resume] with a value
    other than [None] is refused with [TypeError]: the session stays
    [NotStarted] and nothing is printed. With [None] it is the same call as
    [prime]. *)
Theorem resume_before_prime (g : gen_state echo_frame) (v : py_value) :
  state_of g = NotStarted ->
  (v <> PyNone ->
     resume_with g v = (Raise (TypeError just_started_msg), g, []) /\
     is_InvalidStateError (resume_with g v).1.1 = true /\
     state_of (resume_with g v).1.2 = NotStarted) /\
  (v = PyNone -> resume_with g v = prime g).
Proof.
  intros ->%not_started_inv. split.
  - intros Hv. by destruct v.
  - by intros ->.
Qed.

Lemma resume_before_prime_witness :
  state_of GEN_CREATED = NotStarted /\
  (PyStr "A" <> PyNone ->
     resume_with GEN_CREATED (PyStr "A") =
       (Raise (TypeError just_started_msg), GEN_CREATED, []) /\
     is_InvalidStateError (resume_with GEN_CREATED (PyStr "A")).1.1 = true /\
     state_of (resume_with GEN_CREATED (PyStr "A")).1.2 = NotStarted).
Proof.
  split; [reflexivity|].
  apply (resume_before_prime GEN_CREATED (PyStr "A")). reflexivity.
Defined.

(** C5, as stated, fails: [prime] on a session parked at its first [yield]
    is not refused; it ends the session. *)
Lemma prime_twice_counterexample :
  prime (GEN_SUSPENDED at_ready) =
    (Raise (StopIteration (PyStr "closed")), GEN_CLOSED, [finally_line]) /\
  ~ (forall g : gen_state echo_frame,
        state_of g <> NotStarted ->
        is_InvalidStateError (prime g).1.1 = true).
Proof.
  split; [reflexivity|].
  intros H. specialize (H (GEN_SUSPENDED at_ready)).
  cbn in H. discriminate H. discriminate.
Qed.

(** C5, amended. On a session that has started, [prime] is [resume] with
    [None]. It is never refused and never returns a value: on a primed
    session it raises [StopIteration] carrying ['closed'], prints the
    [finally] line and closes the session; on a closed session it raises
    [StopIteration] without a value and changes nothing. *)
Theorem prime_after_start (g : gen_state echo_frame) :
  state_of g <> NotStarted ->
  prime g = resume_with g PyNone /\
  is_InvalidStateError (prime g).1.1 = false /\
  is_Exhausted (prime g).1.1 = true /\
  state_of (prime g).1.2 = Closed /\
  (primed g ->
     prime g =
       (Raise (StopIteration (PyStr "closed")), GEN_CLOSED, [finally_line])) /\
  (state_of g = Closed ->
     prime g = (Raise (StopIteration PyNone), GEN_CLOSED, [])).
Proof.
  destruct g as [|[|val]|]; [done|..]; intros _; repeat split; try done.
  intros [H|H]; discriminate H.
Qed.

Lemma prime_after_start_witness :
  state_of (GEN_SUSPENDED (at_got (PyStr "A"))) <> NotStarted /\
  state_of (prime (GEN_SUSPENDED (at_got (PyStr "A")))).1.2 = Closed.
Proof.
  split; [discriminate|].
  apply (prime_after_start (GEN_SUSPENDED (at_got (PyStr "A")))).
  discriminate.
Defined.

(** C6. On a session that has not started, [prime] runs the body to its
    first [yield]: it returns ['ready'], prints nothing, and the session is
    then in state [Ready]. *)
Theorem prime_returns_ready (g : gen_state echo_frame) :
  state_of g = NotStarted ->
  prime g = (Return (PyStr "ready"), GEN_SUSPENDED at_ready, []) /\
  state_of (prime g).1.2 = Ready.
Proof. by intros ->%not_started_inv. Qed.

Lemma prime_returns_ready_witness :
  state_of GEN_CREATED = NotStarted /\
  prime GEN_CREATED = (Return (PyStr "ready"), GEN_SUSPENDED at_ready, []).
Proof.
  split; [reflexivity|].
  apply (prime_returns_ready GEN_CREATED). reflexivity.
Defined.

(** C7. In any run of [next], [send] and [close] operations from any
    session, once a state of the run is [Closed] every later state of the
    run is [Closed]. *)
Theorem closed_is_terminal
    (g gi gj : gen_state echo_frame) (os : list op) (i j : nat) :
  gen_trace coroutine_echo g os !! i = Some gi ->
  state_of gi = Closed ->
  (i <= j)%nat ->
  gen_trace coroutine_echo g os !! j = Some gj ->
  state_of gj = Closed.
Proof.
  intros Hi Hc%closed_inv Hij Hj.
  by rewrite (gen_trace_closed_after coroutine_echo os g gi gj i j Hi Hc Hij Hj).
Qed.

Lemma closed_is_terminal_witness :
  gen_trace coroutine_echo GEN_CREATED
    [OpNext; OpSend (PyStr "A"); OpSend PyNone; OpNext; OpSend (PyStr "B"); OpClose]
    !! 3%nat = Some GEN_CLOSED /\
  state_of (GEN_CLOSED : gen_state echo_frame) = Closed /\
  (3 <= 5)%nat /\
  gen_trace coroutine_echo GEN_CREATED
    [OpNext; OpSend (PyStr "A"); OpSend PyNone; OpNext; OpSend (PyStr "B"); OpClose]
    !! 5%nat = Some GEN_CLOSED /\
  state_of (GEN_CLOSED : gen_state echo_frame) = Closed.
Proof.
  split; [reflexivity|]. split; [reflexivity|]. split; [lia|].
  split; [reflexivity|].
  apply (closed_is_terminal GEN_CREATED GEN_CLOSED GEN_CLOSED
           [OpNext; OpSend (PyStr "A"); OpSend PyNone; OpNext;
            OpSend (PyStr "B"); OpClose] 3 5);
    [reflexivity|reflexivity|lia|reflexivity].
Defined.

End CoroutineEchoFacts.

(** ** [countdown] *)

Module CountdownFacts.

Import Countdown.

Lemma down_from_nonpos (n : Z) : n <= 0 -> down_from n = [].
Proof. intros Hn. unfold down_from. by rewrite seqZ_nil. Qed.

Lemma down_from_pos (n : Z) : 0 < n -> down_from n = n :: down_from (n - 1).
Proof.
  intros Hn. unfold down_from.
  replace n with ((n - 1) + 1) at 1 by lia.
  rewrite seqZ_app, reverse_app by lia.
  change (seqZ (1 + (n - 1)) 1) with [0 + (1 + (n - 1))].
  cbn [reverse rev_append app]. f_equal. lia.
Qed.

Lemma down_from_length (n : Z) : length (down_from n) = Z.to_nat n.
Proof. unfold down_from. by rewrite length_reverse, length_seqZ. Qed.

Lemma down_from_lookup (n : Z) (i : nat) :
  (i < Z.to_nat n)%nat -> down_from n !! i = Some (n - Z.of_nat i).
Proof.
  intros Hi. unfold down_from.
  rewrite reverse_lookup by (rewrite length_seqZ; lia).
  rewrite length_seqZ, lookup_seqZ_lt by lia. f_equal. lia.
Qed.

(** Resuming a generator parked at [yield k]: the rest of the countdown. *)
Lemma gen_list_suspended (m : Z) (fuel : nat) (k : Z) :
  (Z.to_nat (k - 1) < fuel)%nat ->
  gen_list (countdown m) fuel (GEN_SUSPENDED (at_yield k)) =
    Some (Return PyNone, PyInt <$> down_from (k - 1), GEN_CLOSED, [finished_line]).
Proof.
  revert k. induction fuel as [|fuel IH]; intros k Hk; [lia|].
  cbn [gen_list gen_next gen_send resume countdown countdown_resume].
  unfold countdown_loop. rewrite Z.gtb_ltb.
  destruct (Z.ltb_spec 0 (k - 1)) as [Hpos|Hneg]; cbn [deliver].
  - rewrite IH by lia. by rewrite (down_from_pos (k - 1)).
  - by rewrite down_from_nonpos.
Qed.

(** The run of [demo_generator_function]: two [next] calls, then the loop. *)
Example demo_generator_function_run :
  run_ops (countdown 3) GEN_CREATED [OpNext; OpNext] =
    ([Return (PyInt 3); Return (PyInt 2)], GEN_SUSPENDED (at_yield 2),
     [started_line]) /\
  gen_list (countdown 3) 2 (GEN_SUSPENDED (at_yield 2)) =
    Some (Return PyNone, [PyInt 1], GEN_CLOSED, [finished_line]).
Proof. split; reflexivity. Qed.

(** C8. For every integer [n], [list(countdown(n))] ends (any bound above
    [n] on the number of [next] calls is enough) with the values
    [n, n-1, ..., 1]: there are [n] of them, or none if [n <= 0], the
    [i]-th one is [n - i], and each is smaller than those before it. The
    two log lines are printed around them and the generator ends closed. *)
Theorem countdown_yields (n : Z) (fuel : nat) :
  (Z.to_nat n < fuel)%nat ->
  gen_list (countdown n) fuel GEN_CREATED =
    Some (Return PyNone, PyInt <$> down_from n, GEN_CLOSED,
          [started_line; finished_line]) /\
  length (down_from n) = Z.to_nat n /\
  (forall i : nat,
     (i < Z.to_nat n)%nat -> down_from n !! i = Some (n - Z.of_nat i)) /\
  (forall (i j : nat) (x y : Z),
     (i < j)%nat -> down_from n !! i = Some x -> down_from n !! j = Some y ->
     y < x) /\
  (n <= 0 -> down_from n = []).
Proof.
  intros Hfuel. split; [|split; [|split; [|split]]].
  - destruct fuel as [|fuel]; [lia|].
    cbn [gen_list gen_next gen_send is_None start countdown].
    unfold countdown_loop. rewrite Z.gtb_ltb.
    destruct (Z.ltb_spec 0 n) as [Hpos|Hneg]; cbn [deliver].
    + rewrite gen_list_suspended by lia. by rewrite (down_from_pos n).
    + by rewrite down_from_nonpos.
  - apply down_from_length.
  - apply down_from_lookup.
  - intros i j x y Hij Hx Hy.
    assert (j < Z.to_nat n)%nat as Hj.
    { rewrite <- down_from_length. by eapply lookup_lt_Some. }
    rewrite down_from_lookup in Hx, Hy by lia.
    injection Hx as <-. injection Hy as <-. lia.
  - apply down_from_nonpos.
Qed.

Lemma countdown_yields_witness :
  (Z.to_nat 3 < 4)%nat /\
  gen_list (countdown 3) 4 GEN_CREATED =
    Some (Return PyNone, [PyInt 3; PyInt 2; PyInt 1], GEN_CLOSED,
          [started_line; finished_line]).
Proof.
  split; [vm_compute; lia|].
  apply (countdown_yields 3 4). vm_compute; lia.
Defined.

End CountdownFacts.

(** ** [CountUpIterator] and [CountUpIterable] *)

Module CountUpFacts.

Import CountUp.

Lemma next_exhausted (self : CountUpIterator) :
  current self >= max self ->
  __next__ self = (Raise (StopIteration PyNone), self).
Proof.
  intros H. unfold __next__. rewrite Z.geb_leb.
  destruct (Z.leb_spec (max self) (current self)); [done|lia].
Qed.

Lemma next_live (self : CountUpIterator) :
  current self < max self ->
  __next__ self =
    (Return (PyInt (current self + 1)),
     {| max := max self; current := current self + 1 |}).
Proof.
  intros H. unfold __next__. rewrite Z.geb_leb.
  destruct (Z.leb_spec (max self) (current self)); [lia|done].
Qed.

Lemma next_times_exhausted (k : nat) (self : CountUpIterator) :
  current self >= max self ->
  next_times k self = (replicate k (Raise (StopIteration PyNone)), self).
Proof.
  intros H. induction k as [|k IH]; [done|].
  cbn [next_times]. by rewrite next_exhausted, IH.
Qed.

(** The run of [demo_stateful_iterator]. *)
Example demo_stateful_iterator_run :
  next_times 4 (__init__ 3) =
    ([Return (PyInt 1); Return (PyInt 2); Return (PyInt 3);
      Raise (StopIteration PyNone)],
     {| max := 3; current := 3 |}).
Proof. reflexivity. Qed.

(** C10. [__next__] raises exactly when [current >= max], and what it raises
    is [StopIteration]. From then on (in particular from the start when the
    iterator was made with a bound [<= 0]) every call raises it again and
    the fields [current] and [max] keep their values. *)
Theorem next_raises_iff_exhausted (self : CountUpIterator) (k : nat) :
  ((exists e, (__next__ self).1 = Raise e) <-> current self >= max self) /\
  (current self >= max self ->
     __next__ self = (Raise (StopIteration PyNone), self) /\
     next_times k self = (replicate k (Raise (StopIteration PyNone)), self)) /\
  (forall m : Z,
     m <= 0 ->
     next_times k (__init__ m) =
       (replicate k (Raise (StopIteration PyNone)), __init__ m)).
Proof.
  split; [|split].
  - split.
    + intros [e He]. destruct (Z_lt_ge_dec (current self) (max self)) as [Hlt|Hge];
        [|done].
      rewrite next_live in He by done. discriminate He.
    + intros Hge. exists (StopIteration PyNone). by rewrite next_exhausted.
  - intros Hge. split; [by apply next_exhausted|by apply next_times_exhausted].
  - intros m Hm. apply next_times_exhausted. cbn. lia.
Qed.

Lemma next_raises_iff_exhausted_witness :
  current {| max := 3; current := 3 |} >= max {| max := 3; current := 3 |} /\
  next_times 2 {| max := 3; current := 3 |} =
    ([Raise (StopIteration PyNone); Raise (StopIteration PyNone)],
     {| max := 3; current := 3 |}) /\
  (-1 <= 0 /\
   next_times 2 (__init__ (-1)) =
    ([Raise (StopIteration PyNone); Raise (StopIteration PyNone)],
     __init__ (-1))).
Proof.
  pose proof (next_raises_iff_exhausted {| max := 3; current := 3 |} 2)
    as (_ & Hex & Hinit).
  split; [cbn; lia|]. split.
  - apply Hex. cbn; lia.
  - split; [lia|]. apply Hinit. lia.
Defined.

(** The object an iterator has become once it was drained. *)
Lemma drain_spec (fuel : nat) (l : loc) (h : gmap loc CountUpIterator)
    (self : CountUpIterator) :
  h !! l = Some self ->
  (Z.to_nat (max self - current self) < fuel)%nat ->
  drain fuel l h =
    Some (PyInt <$> seqZ (current self + 1) (max self - current self),
          <[l := {| max := max self;
                    current := Z.max (current self) (max self) |}]> h).
Proof.
  revert h self. induction fuel as [|fuel IH]; intros h self Hl Hfuel; [lia|].
  cbn [drain]. unfold next_at. rewrite Hl.
  destruct (Z_lt_ge_dec (current self) (max self)) as [Hlt|Hge].
  - rewrite next_live by done.
    erewrite IH; [|apply lookup_insert_eq|cbn [max current]; lia].
    cbn [max current]. rewrite insert_insert_eq.
    rewrite (seqZ_cons (current self + 1)) by lia.
    replace (Z.succ (current self + 1)) with (current self + 1 + 1) by lia.
    replace (Z.pred (max self - current self))
      with (max self - (current self + 1)) by lia.
    replace (Z.max (current self + 1) (max self))
      with (Z.max (current self) (max self)) by lia.
    reflexivity.
  - rewrite next_exhausted by done.
    rewrite seqZ_nil by lia. do 3 f_equal.
    destruct self as [mx cur]. cbn in *. f_equal. lia.
Qed.

Lemma iterable_iter_fresh (self : CountUpIterable) (h : gmap loc CountUpIterator) :
  h !! (iterable_iter self h).1 = None.
Proof. apply not_elem_of_dom. cbn. apply is_fresh. Qed.

Lemma list_of_spec (fuel : nat) (self : CountUpIterable)
    (h : gmap loc CountUpIterator) :
  (Z.to_nat (iterable_max self) < fuel)%nat ->
  exists h',
    list_of fuel self h = Some (PyInt <$> seqZ 1 (iterable_max self), h') /\
    h ⊆ h'.
Proof.
  intros Hfuel. unfold list_of, iterable_iter, alloc, __iter__.
  erewrite drain_spec; [|apply lookup_insert_eq|cbn; by rewrite Z.sub_0_r].
  cbn [max current __init__]. rewrite Z.sub_0_r, insert_insert_eq.
  eexists. split; [reflexivity|].
  apply insert_subseteq, (iterable_iter_fresh self h).
Qed.

Lemma passes_spec (n fuel : nat) (self : CountUpIterable)
    (h : gmap loc CountUpIterator) :
  (Z.to_nat (iterable_max self) < fuel)%nat ->
  exists h',
    passes n fuel self h =
      Some (replicate n (PyInt <$> seqZ 1 (iterable_max self)), h') /\
    h ⊆ h'.
Proof.
  intros Hfuel. revert h. induction n as [|n IH]; intros h.
  - by exists h.
  - cbn [passes].
    destruct (list_of_spec fuel self h Hfuel) as (h1 & -> & Hsub1).
    destruct (IH h1) as (h2 & -> & Hsub2).
    exists h2. split; [done|by etrans].
Qed.

(** C9. [CountUpIterable(m).__iter__] makes a new iterator object: it is at
    an identity no object had before, it starts at [current = 0], the
    objects already there keep their fields, and a second call gives yet
    another object. So [list(iterable)], evaluated any number [n] of times
    in a row, gives [[1, ..., m]] each time (the empty list if [m <= 0]),
    and no object that was there before is changed by it. *)
Theorem iterable_is_reusable (m : Z) (n fuel : nat)
    (h : gmap loc CountUpIterator) :
  (Z.to_nat m < fuel)%nat ->
  let self := {| iterable_max := m |} in
  let '(l1, h1) := iterable_iter self h in
  let '(l2, h2) := iterable_iter self h1 in
  h !! l1 = None /\
  h1 !! l1 = Some (__init__ m) /\
  h ⊆ h1 /\
  l2 <> l1 /\
  h2 !! l2 = Some (__init__ m) /\
  exists h',
    passes n fuel self h = Some (replicate n (PyInt <$> seqZ 1 m), h') /\
    h ⊆ h'.
Proof.
  intros Hfuel self.
  pose proof (iterable_iter_fresh self h) as Hf1.
  pose proof (iterable_iter_fresh self (iterable_iter self h).2) as Hf2.
  destruct (iterable_iter self h) as [l1 h1] eqn:E1.
  destruct (iterable_iter self h1) as [l2 h2] eqn:E2.
  cbn [fst snd] in *.
  unfold iterable_iter, alloc in E1, E2.
  injection E1 as <- <-. injection E2 as <- <-.
  subst self. cbn [iterable_max] in *.
  split_and!.
  - exact Hf1.
  - apply lookup_insert_eq.
  - by apply insert_subseteq.
  - intros Heq. unfold iterable_iter, alloc in Hf2. cbn [fst iterable_max] in Hf2.
    rewrite Heq, lookup_insert_eq in Hf2. discriminate Hf2.
  - apply lookup_insert_eq.
  - apply (passes_spec n fuel {| iterable_max := m |} h Hfuel).
Qed.

Lemma iterable_is_reusable_witness :
  (Z.to_nat 3 < 4)%nat /\
  exists h',
    passes 2 4 {| iterable_max := 3 |} ∅ =
      Some ([[PyInt 1; PyInt 2; PyInt 3]; [PyInt 1; PyInt 2; PyInt 3]], h') /\
    ∅ ⊆ h'.
Proof.
  split; [vm_compute; lia|].
  pose proof (iterable_is_reusable 3 2 4 ∅) as H.
  cbv zeta in H.
  destruct (iterable_iter {| iterable_max := 3 |} ∅) as [l1 h1].
  destruct (iterable_iter {| iterable_max := 3 |} h1) as [l2 h2].
  apply H. vm_compute; lia.
Defined.

End CountUpFacts.

(** ** Runs of the generator protocol *)

Module GeneratorRuns.

Section Runs.

Context {frame : Type} (b : body frame).

(** A run of [os1 ++ os2] is the run of [os1] followed by that of [os2]. *)
Lemma run_ops_app (g : gen_state frame) (os1 os2 : list op) :
  run_ops b g (os1 ++ os2) =
    (((run_ops b g os1).1.1 ++ (run_ops b (run_ops b g os1).1.2 os2).1.1),
     (run_ops b (run_ops b g os1).1.2 os2).1.2,
     (run_ops b g os1).2 ++ (run_ops b (run_ops b g os1).1.2 os2).2).
Proof.
  revert g. induction os1 as [|o os1 IH]; intros g.
  - cbn. by destruct (run_ops b g os2) as [[rs g2] out2].
  - cbn [app run_ops]. destruct (run_op b g o) as [[r g1] out1].
    rewrite IH.
    destruct (run_ops b g1 os1) as [[rs1 g2] out2]. cbn [fst snd].
    destruct (run_ops b g2 os2) as [[rs2 g3] out3]. cbn [fst snd].
    by rewrite app_assoc.
Qed.

Lemma nexts_closed (k : nat) :
  run_ops b GEN_CLOSED (replicate k OpNext) =
    (replicate k (Raise (StopIteration PyNone)), GEN_CLOSED, []).
Proof.
  induction k as [|k IH]; [done|].
  cbn [replicate run_ops run_op gen_next gen_send]. by rewrite IH.
Qed.

Lemma gen_list_closed (fuel : nat) :
  gen_list b (S fuel) GEN_CLOSED = Some (Return PyNone, [], GEN_CLOSED, []).
Proof. reflexivity. Qed.

End Runs.

End GeneratorRuns.

(** ** More on [countdown] *)

Module CountdownRuns.

Import Countdown CountdownFacts GeneratorFacts GeneratorRuns.

Lemma down_from_take_drop (n : Z) (k : nat) :
  (k <= Z.to_nat n)%nat ->
  drop k (down_from n) = down_from (n - Z.of_nat k).
Proof.
  revert n. induction k as [|k IH]; intros n Hk.
  - cbn [drop]. by replace (n - Z.of_nat 0) with n by lia.
  - rewrite (down_from_pos n) by lia. cbn [drop].
    rewrite IH by lia.
    by replace (n - 1 - Z.of_nat k) with (n - Z.of_nat (S k)) by lia.
Qed.

(** [k] calls of [next] on a generator parked at [yield j], while values
    are left. *)
Lemma nexts_suspended (m j : Z) (k : nat) :
  (k <= Z.to_nat (j - 1))%nat ->
  run_ops (countdown m) (GEN_SUSPENDED (at_yield j)) (replicate k OpNext) =
    ((Return ∘ PyInt) <$> take k (down_from (j - 1)),
     GEN_SUSPENDED (at_yield (j - Z.of_nat k)), []).
Proof.
  revert j. induction k as [|k IH]; intros j Hk.
  - replace (j - Z.of_nat 0) with j by lia. reflexivity.
  - replace (j - Z.of_nat (S k)) with (j - 1 - Z.of_nat k) by lia.
    cbn [replicate run_ops run_op gen_next gen_send resume countdown
         countdown_resume].
    unfold countdown_loop. rewrite Z.gtb_ltb.
    destruct (Z.ltb_spec 0 (j - 1)) as [Hpos|Hneg]; [|lia].
    cbn [deliver]. rewrite IH by lia.
    by rewrite (down_from_pos (j - 1)) by lia.
Qed.

(** [k >= 1] calls of [next] on a new generator, while values are left. *)
Lemma nexts_created (n : Z) (k : nat) :
  (0 < k <= Z.to_nat n)%nat ->
  run_ops (countdown n) GEN_CREATED (replicate k OpNext) =
    ((Return ∘ PyInt) <$> take k (down_from n),
     GEN_SUSPENDED (at_yield (n - Z.of_nat k + 1)), [started_line]).
Proof.
  intros Hk. destruct k as [|k]; [lia|].
  replace (n - Z.of_nat (S k) + 1) with (n - Z.of_nat k) by lia.
  cbn [replicate run_ops run_op gen_next gen_send is_None start countdown].
  unfold countdown_loop. rewrite Z.gtb_ltb.
  destruct (Z.ltb_spec 0 n) as [Hpos|Hneg]; [|lia].
  cbn [deliver]. rewrite nexts_suspended by lia.
  by rewrite (down_from_pos n) by lia.
Qed.

(** The whole of [list(countdown(n))], as a fact the proofs below share. *)
Lemma gen_list_created (n : Z) (fuel : nat) :
  (Z.to_nat n < fuel)%nat ->
  gen_list (countdown n) fuel GEN_CREATED =
    Some (Return PyNone, PyInt <$> down_from n, GEN_CLOSED,
          [started_line; finished_line]).
Proof.
  intros Hfuel. destruct fuel as [|fuel]; [lia|].
  cbn [gen_list gen_next gen_send is_None start countdown].
  unfold countdown_loop. rewrite Z.gtb_ltb.
  destruct (Z.ltb_spec 0 n) as [Hpos|Hneg]; cbn [deliver].
  - rewrite gen_list_suspended by lia. by rewrite (down_from_pos n).
  - by rewrite down_from_nonpos.
Qed.

(** X1. A [countdown(n)] that was advanced by hand resumes where it stands:
    after [k] calls of [next] ([1 <= k <= n]), which return the first [k]
    values and print only the start line, a loop over the same generator
    gives the remaining values [n-k, ..., 1] and then prints the end
    line. *)
Theorem countdown_next_then_loop (n : Z) (k fuel : nat) :
  (0 < k <= Z.to_nat n)%nat ->
  (Z.to_nat n - k < fuel)%nat ->
  let '(rs, g, out) := run_ops (countdown n) GEN_CREATED (replicate k OpNext) in
  rs = (Return ∘ PyInt) <$> take k (down_from n) /\
  out = [started_line] /\
  gen_list (countdown n) fuel g =
    Some (Return PyNone, PyInt <$> down_from (n - Z.of_nat k), GEN_CLOSED,
          [finished_line]) /\
  take k (down_from n) ++ down_from (n - Z.of_nat k) = down_from n.
Proof.
  intros Hk Hfuel. rewrite nexts_created by done.
  split_and!; [done|done| |].
  - rewrite gen_list_suspended by lia.
    by replace (n - Z.of_nat k + 1 - 1) with (n - Z.of_nat k) by lia.
  - rewrite <- down_from_take_drop by lia. apply take_drop.
Qed.

Lemma countdown_next_then_loop_witness :
  (0 < 2 <= Z.to_nat 3)%nat /\ (Z.to_nat 3 - 2 < 2)%nat /\
  gen_list (countdown 3) 2 (GEN_SUSPENDED (at_yield 2)) =
    Some (Return PyNone, [PyInt 1], GEN_CLOSED, [finished_line]).
Proof.
  split; [vm_compute; lia|]. split; [vm_compute; lia|].
  pose proof (countdown_next_then_loop 3 2 2) as H.
  cbv beta iota zeta delta [run_ops replicate] in H. cbn in H.
  apply H; vm_compute; lia.
Defined.

(** X2. A [countdown(n)] is used up by one pass: of [k > n] calls of
    [next] the first [n] return [n, ..., 1] and every later one raises
    [StopIteration]; the start and end lines are printed once each, and a
    later [list(...)] of the same generator is empty and prints nothing. *)
Theorem countdown_is_single_use (n : Z) (k fuel : nat) :
  (Z.to_nat n < k)%nat ->
  run_ops (countdown n) GEN_CREATED (replicate k OpNext) =
    (((Return ∘ PyInt) <$> down_from n) ++
       replicate (k - Z.to_nat n) (Raise (StopIteration PyNone)),
     GEN_CLOSED, [started_line; finished_line]) /\
  gen_list (countdown n) (S fuel)
    (run_ops (countdown n) GEN_CREATED (replicate k OpNext)).1.2 =
    Some (Return PyNone, [], GEN_CLOSED, []).
Proof.
  intros Hk.
  assert (run_ops (countdown n) GEN_CREATED (replicate k OpNext) =
    (((Return ∘ PyInt) <$> down_from n) ++
       replicate (k - Z.to_nat n) (Raise (StopIteration PyNone)),
     GEN_CLOSED, [started_line; finished_line])) as Hrun.
  { destruct k as [|k]; [lia|].
    cbn [replicate run_ops run_op gen_next gen_send is_None start countdown].
    unfold countdown_loop. rewrite Z.gtb_ltb.
    destruct (Z.ltb_spec 0 n) as [Hpos|Hneg]; cbn [deliver].
    - replace k with (Z.to_nat (n - 1) + (S k - Z.to_nat n))%nat by lia.
      rewrite replicate_add, run_ops_app, nexts_suspended by lia.
      cbn [fst snd].
      replace (n - Z.of_nat (Z.to_nat (n - 1))) with 1 by lia.
      replace (Z.to_nat (n - 1) + (S k - Z.to_nat n))%nat with k by lia.
      destruct (S k - Z.to_nat n)%nat as [|j] eqn:Ej; [lia|].
      cbn [replicate run_ops run_op gen_next gen_send resume countdown
           countdown_resume].
      change (countdown_loop (1 - 1))
        with ([finished_line], @Done countdown_frame PyNone).
      cbn [deliver].
      rewrite nexts_closed. cbn [app].
      rewrite (down_from_pos n) by lia.
      rewrite take_ge by (rewrite down_from_length; lia).
      reflexivity.
    - rewrite nexts_closed, down_from_nonpos by lia.
      replace (S k - Z.to_nat n)%nat with (S k) by lia. reflexivity. }
  split; [exact Hrun|]. by rewrite Hrun.
Qed.

Lemma countdown_is_single_use_witness :
  (Z.to_nat 2 < 4)%nat /\
  run_ops (countdown 2) GEN_CREATED (replicate 4 OpNext) =
    ([Return (PyInt 2); Return (PyInt 1);
      Raise (StopIteration PyNone); Raise (StopIteration PyNone)],
     GEN_CLOSED, [started_line; finished_line]).
Proof.
  split; [vm_compute; lia|].
  apply (countdown_is_single_use 2 4 0). vm_compute; lia.
Defined.

(** X3. Closing a [countdown(n)] before it is used up ([k <= n] values
    taken) never prints the end line: the body has no [finally], so the
    output of the whole run, whatever follows the [close], is the start line
    alone, or nothing if no value was taken. [close] itself returns [None]
    and leaves the generator closed. *)
Theorem countdown_close_skips_end_line (n : Z) (k : nat) (os : list op) :
  (k <= Z.to_nat n)%nat ->
  let '(rs, g, out) :=
    run_ops (countdown n) GEN_CREATED (replicate k OpNext ++ OpClose :: os) in
  g = GEN_CLOSED /\
  out = match k with O => [] | S _ => [started_line] end /\
  (finished_line ∉ out) /\
  exists rs',
    rs = ((Return ∘ PyInt) <$> take k (down_from n)) ++ Return PyNone :: rs'.
Proof.
  intros Hk. rewrite run_ops_app.
  destruct (run_ops_closed (countdown n) os) as [Hg Hout].
  destruct k as [|k].
  - cbn [replicate run_ops fst snd run_op gen_close app take fmap list_fmap].
    destruct (run_ops (countdown n) GEN_CLOSED os) as [[rs2 g2] out2].
    cbn [fst snd] in *. subst. split_and!; [done|done|set_solver|by eexists].
  - rewrite nexts_created by lia.
    cbn [fst snd run_ops run_op gen_close resume countdown countdown_resume].
    destruct (run_ops (countdown n) GEN_CLOSED os) as [[rs2 g2] out2].
    cbn [fst snd] in *. subst. split_and!; [done|done| |by eexists].
    cbn. intros [H|H]%elem_of_cons; [discriminate H|set_solver].
Qed.

Lemma countdown_close_skips_end_line_witness :
  (2 <= Z.to_nat 3)%nat /\
  (run_ops (countdown 3) GEN_CREATED [OpNext; OpNext; OpClose; OpNext]).2 =
    [started_line].
Proof.
  split; [vm_compute; lia|].
  pose proof (countdown_close_skips_end_line 3 2 [OpNext]) as H.
  cbn in H. apply H. vm_compute; lia.
Defined.

End CountdownRuns.

(** ** More on [coroutine_echo] *)

Module CoroutineEchoRuns.

Import CoroutineEcho CoroutineEchoFacts GeneratorFacts GeneratorRuns.

#[local] Set Warnings "-clear-no-such-hyp".

(** What one operation prints, by the state it is run in, when formatting
    the value sent prints nothing. *)
Lemma echo_step_shape (g : gen_state echo_frame) (o : op) :
  op_prints o = [] ->
  match g with
  | GEN_CLOSED =>
      (run_op coroutine_echo g o).1.2 = GEN_CLOSED /\
      (run_op coroutine_echo g o).2 = []
  | GEN_SUSPENDED _ =>
      ((run_op coroutine_echo g o).1.2 = GEN_CLOSED /\
       (run_op coroutine_echo g o).2 = [finally_line]) \/
      ((exists k, (run_op coroutine_echo g o).1.2 = GEN_SUSPENDED k) /\
       (run_op coroutine_echo g o).2 = [])
  | GEN_CREATED => (run_op coroutine_echo g o).2 = []
  end.
Proof.
  intros Hq. destruct g as [|k|].
  - destruct o as [|v|]; [done| |done]. cbn. by destruct (is_None v).
  - destruct o as [|v|]; [by left| |by left].
    cbn [run_op gen_send resume coroutine_echo echo_resume].
    cbn [op_prints] in Hq. unfold echo_loop.
    destruct (is_None v); [by left|].
    destruct (py_format v) as [out [s|e]]; cbn [fst] in Hq; subst out.
    + right. cbn. eauto.
    + by left.
  - by rewrite run_op_closed.
Qed.

(** What a run can print, by the state it starts in. *)
Lemma echo_run_shape (g : gen_state echo_frame) (os : list op) :
  Forall (fun o => op_prints o = []) os ->
  match g with
  | GEN_CLOSED =>
      (run_ops coroutine_echo g os).1.2 = GEN_CLOSED /\
      (run_ops coroutine_echo g os).2 = []
  | GEN_SUSPENDED _ =>
      ((run_ops coroutine_echo g os).1.2 = GEN_CLOSED /\
       (run_ops coroutine_echo g os).2 = [finally_line]) \/
      ((exists k, (run_ops coroutine_echo g os).1.2 = GEN_SUSPENDED k) /\
       (run_ops coroutine_echo g os).2 = [])
  | GEN_CREATED =>
      (run_ops coroutine_echo g os).2 = [] \/
      ((run_ops coroutine_echo g os).1.2 = GEN_CLOSED /\
       (run_ops coroutine_echo g os).2 = [finally_line])
  end.
Proof.
  intros Hq. revert g. induction Hq as [|o os Ho Hos IH]; intros g.
  - destruct g as [|k|]; cbn; eauto.
  - pose proof (echo_step_shape g o Ho) as Hstep.
    cbn [run_ops]. destruct (run_op coroutine_echo g o) as [[r g1] out1].
    specialize (IH g1).
    destruct (run_ops coroutine_echo g1 os) as [[rs g2] out2].
    cbn [fst snd] in *.
    destruct g as [|k|].
    + subst out1. destruct g1 as [|k1|]; naive_solver.
    + destruct Hstep as [[-> ->]|[[k1 ->] ->]]; naive_solver.
    + destruct Hstep as [-> ->]. naive_solver.
Qed.

(** X4. Over any run of [next], [send] and [close] operations, from any
    state, in which formatting the values sent prints nothing, the [finally]
    line is printed at most once and nothing else is printed; if it is
    printed the session ends [Closed]. For a session that starts primed, it
    is printed exactly when the run ends [Closed]. *)
Theorem finalization_at_most_once (g : gen_state echo_frame) (os : list op) :
  Forall (fun o => op_prints o = []) os ->
  let '(rs, g', out) := run_ops coroutine_echo g os in
  (out = [] \/ out = [finally_line]) /\
  (finalizations out <= 1)%nat /\
  (out = [finally_line] -> state_of g' = Closed) /\
  (primed g -> (out = [finally_line] <-> state_of g' = Closed)).
Proof.
  intros Hq. pose proof (echo_run_shape g os Hq) as H.
  destruct (run_ops coroutine_echo g os) as [[rs g'] out]. cbn [fst snd] in H.
  assert (out = [] \/ out = [finally_line]) as Hout
    by (destruct g; naive_solver).
  split_and!.
  - done.
  - destruct Hout as [-> | ->]; cbn; lia.
  - intros ->. destruct g; naive_solver.
  - intros [k ->]%primed_inv. destruct H as [[-> ->]|[[k' ->] ->]].
    + done.
    + split; [discriminate|]. by destruct k'.
Qed.

Lemma finalization_at_most_once_witness :
  Forall (fun o => op_prints o = [])
    [OpSend (PyStr "A");
     OpSend (PyObj [] (FormatRaised (OtherError "KeyError" "boom")));
     OpNext; OpClose] /\
  (run_ops coroutine_echo (GEN_SUSPENDED at_ready)
     [OpSend (PyStr "A");
      OpSend (PyObj [] (FormatRaised (OtherError "KeyError" "boom")));
      OpNext; OpClose]).2 = [finally_line] /\
  state_of
    (run_ops coroutine_echo (GEN_SUSPENDED at_ready)
       [OpSend (PyStr "A");
        OpSend (PyObj [] (FormatRaised (OtherError "KeyError" "boom")));
        OpNext; OpClose]).1.2 = Closed.
Proof.
  assert (Forall (fun o => op_prints o = [])
    [OpSend (PyStr "A");
     OpSend (PyObj [] (FormatRaised (OtherError "KeyError" "boom")));
     OpNext; OpClose]) as Hq by (repeat constructor).
  split; [exact Hq|].
  pose proof (finalization_at_most_once (GEN_SUSPENDED at_ready) _ Hq) as H.
  cbn in H. destruct H as (_ & _ & Hc & _).
  split; [reflexivity|]. apply Hc. reflexivity.
Defined.

Lemma send_echo (g : gen_state echo_frame) (v : py_value)
    (out : stdout) (s : string) :
  primed g -> v <> PyNone -> py_format v = (out, Formatted s) ->
  gen_send coroutine_echo g v =
    (Return (PyStr ("got " +:+ s)), GEN_SUSPENDED (at_got v), out).
Proof.
  intros [k ->]%primed_inv Hv Hf.
  cbn [gen_send resume coroutine_echo echo_resume].
  by rewrite (echo_loop_formatted v out s Hv Hf).
Qed.

(** X5. A primed session echoes a whole series of values in order, as long
    as none is [None] and formatting each returns a string: the results are
    ["got "] followed by these strings, the output is what the formatting
    printed (nothing for strings, booleans and integers), and the session is
    left parked with the last value. *)
Theorem sends_echo_in_order (g : gen_state echo_frame) (vs : list py_value) :
  primed g ->
  Forall (fun v => v <> PyNone /\ exists s, (py_format v).2 = Formatted s) vs ->
  run_ops coroutine_echo g (OpSend <$> vs) =
    ((fun v => Return (PyStr ("got " +:+
                 match (py_format v).2 with
                 | Formatted s => s
                 | FormatRaised _ => ""
                 end))) <$> vs,
     from_option (fun v => GEN_SUSPENDED (at_got v)) g (last vs),
     concat ((fun v => (py_format v).1) <$> vs)).
Proof.
  intros Hg Hvs. revert g Hg.
  induction Hvs as [|v vs [Hv [s Hs]] Hvs IH]; intros g Hg; [done|].
  change (OpSend <$> v :: vs) with (OpSend v :: (OpSend <$> vs)).
  cbn [run_ops run_op].
  rewrite (send_echo g v (py_format v).1 s Hg Hv)
    by (rewrite <- Hs; by destruct (py_format v)).
  rewrite IH by (right; reflexivity).
  rewrite last_cons, !fmap_cons, Hs. cbn [concat]. by destruct (last vs).
Qed.

Lemma sends_echo_in_order_witness :
  primed (GEN_SUSPENDED at_ready) /\
  Forall (fun v => v <> PyNone /\ exists s, (py_format v).2 = Formatted s)
    [PyStr "A"; PyInt 7; PyObj ["formatting"] (Formatted "obj")] /\
  run_ops coroutine_echo (GEN_SUSPENDED at_ready)
    (OpSend <$> [PyStr "A"; PyInt 7; PyObj ["formatting"] (Formatted "obj")]) =
    ([Return (PyStr "got A"); Return (PyStr "got 7"); Return (PyStr "got obj")],
     GEN_SUSPENDED (at_got (PyObj ["formatting"] (Formatted "obj"))),
     ["formatting"]).
Proof.
  assert (primed (GEN_SUSPENDED at_ready)) as Hp by (left; reflexivity).
  assert (Forall (fun v => v <> PyNone /\
                          exists s, (py_format v).2 = Formatted s)
    [PyStr "A"; PyInt 7; PyObj ["formatting"] (Formatted "obj")]) as Hv.
  { repeat constructor; try discriminate.
    - by exists "A".
    - exists "7". by rewrite (py_format_int 7) by (apply below_limit; reflexivity).
    - by exists "obj". }
  split; [exact Hp|]. split; [exact Hv|].
  rewrite (sends_echo_in_order (GEN_SUSPENDED at_ready) _ Hp Hv).
  rewrite !fmap_cons, (py_format_int 7) by (apply below_limit; reflexivity).
  reflexivity.
Defined.

(** X6. Abandoning a primed session with [close] runs the [finally] clause:
    [close] returns [None], prints the line and leaves the session
    [Closed]; whatever operations follow, the line is in the output of the
    run exactly once. *)
Theorem close_finalizes_once (g : gen_state echo_frame) (os : list op) :
  primed g ->
  close g = (Return PyNone, GEN_CLOSED, [finally_line]) /\
  finalizations (run_ops coroutine_echo g (OpClose :: os)).2 = 1%nat.
Proof.
  intros [k ->]%primed_inv. split; [done|].
  cbn [run_ops run_op gen_close resume coroutine_echo echo_resume].
  destruct (run_ops_closed coroutine_echo os) as [_ Hout].
  destruct (run_ops coroutine_echo GEN_CLOSED os) as [[rs g2] out2].
  simpl in Hout. subst out2. reflexivity.
Qed.

Lemma close_finalizes_once_witness :
  primed (GEN_SUSPENDED at_ready) /\
  finalizations
    (run_ops coroutine_echo (GEN_SUSPENDED at_ready)
       [OpClose; OpClose; OpSend PyNone]).2 = 1%nat.
Proof.
  split; [left; reflexivity|].
  apply (close_finalizes_once (GEN_SUSPENDED at_ready) [OpClose; OpSend PyNone]).
  left; reflexivity.
Defined.

(** X7. A session that is closed before it was primed never runs the
    [finally] clause: the body had not entered its [try]. The first [close]
    returns [None], the run prints nothing whatever follows, and of the
    operations that follow every [close] returns [None] and every [next]
    and [send] raises [StopIteration] without a value. *)
Theorem close_before_prime_skips_finally (os : list op) :
  run_ops coroutine_echo GEN_CREATED (OpClose :: os) =
    (Return PyNone ::
       ((fun o => match o with
                  | OpClose => Return PyNone
                  | _ => Raise (StopIteration PyNone)
                  end) <$> os),
     GEN_CLOSED, []) /\
  finalizations (run_ops coroutine_echo GEN_CREATED (OpClose :: os)).2 = 0%nat.
Proof.
  assert (run_ops coroutine_echo GEN_CLOSED os =
    ((fun o => match o with
               | OpClose => Return PyNone
               | _ => Raise (StopIteration PyNone)
               end) <$> os, GEN_CLOSED, [])) as Hrun.
  { induction os as [|o os IH]; [done|].
    cbn [run_ops]. rewrite run_op_closed, IH. reflexivity. }
  cbn [run_ops run_op gen_close]. rewrite Hrun. by split.
Qed.

End CoroutineEchoRuns.

(** ** More on [CountUpIterator] and [CountUpIterable] *)

Module CountUpRuns.

Import CountUp CountUpFacts.

(** What [k] calls of [__next__] give, from any fields: the values that are
    left, as far as [k] reaches, and [StopIteration] for the other calls. *)
Lemma next_times_shape (k : nat) (self : CountUpIterator) :
  next_times k self =
    (((Return ∘ PyInt) <$>
        seqZ (current self + 1)
          (Z.of_nat (k `min` Z.to_nat (max self - current self)))) ++
       replicate (k - Z.to_nat (max self - current self))
         (Raise (StopIteration PyNone)),
     {| max := max self;
        current := current self +
                   Z.of_nat (k `min` Z.to_nat (max self - current self)) |}).
Proof.
  revert self. induction k as [|k IH]; intros [mx cur]; cbn [max current].
  - cbn. by rewrite Z.add_0_r.
  - destruct (Z_lt_ge_dec cur mx) as [Hlt|Hge].
    + cbn [next_times]. rewrite next_live by done. rewrite IH.
      cbn [max current].
      replace (S k `min` Z.to_nat (mx - cur))%nat
        with (S (k `min` Z.to_nat (mx - (cur + 1))))%nat by lia.
      replace (S k - Z.to_nat (mx - cur))%nat
        with (k - Z.to_nat (mx - (cur + 1)))%nat by lia.
      rewrite (seqZ_cons (cur + 1)) by lia.
      replace (Z.succ (cur + 1)) with (cur + 1 + 1) by lia.
      replace (Z.pred (Z.of_nat (S (k `min` Z.to_nat (mx - (cur + 1))))))
        with (Z.of_nat (k `min` Z.to_nat (mx - (cur + 1)))) by lia.
      replace (cur + Z.of_nat (S (k `min` Z.to_nat (mx - (cur + 1)))))
        with (cur + 1 + Z.of_nat (k `min` Z.to_nat (mx - (cur + 1)))) by lia.
      reflexivity.
    + rewrite next_times_exhausted by (cbn; lia).
      replace (Z.to_nat (mx - cur)) with 0%nat by lia.
      rewrite Nat.min_0_r, Nat.sub_0_r. cbn. by rewrite Z.add_0_r.
Qed.

(** X8. [k] calls of [__next__] on an iterator with fields [max] and
    [current] return the values [current+1, current+2, ...] up to [max],
    as many as [k] reaches, and raise [StopIteration] in every call after
    that. [max] is never changed, and [current] has grown by the number of
    values returned. *)
Theorem next_times_spec (k : nat) (self : CountUpIterator) :
  let left := Z.to_nat (max self - current self) in
  let '(rs, self') := next_times k self in
  rs = ((Return ∘ PyInt) <$>
          seqZ (current self + 1) (Z.of_nat (k `min` left))) ++
       replicate (k - left) (Raise (StopIteration PyNone)) /\
  max self' = max self /\
  current self' = current self + Z.of_nat (k `min` left).
Proof. cbv zeta. by rewrite next_times_shape. Qed.

(** X9. An iterator made by [CountUpIterator(m)] stays within its bounds
    under any number of [__next__] calls: [current] is between [0] and
    [max(0, m)], every value returned is between [1] and [m], and the
    [i]-th call (from [0]) returns [i + 1] if it returns at all. *)
Theorem count_up_stays_in_bounds (m : Z) (k : nat) :
  let '(rs, self') := next_times k (__init__ m) in
  max self' = m /\
  0 <= current self' <= Z.max 0 m /\
  (forall v : Z, Return (PyInt v) ∈ rs -> 1 <= v <= m) /\
  (forall (i : nat) (v : py_value),
     rs !! i = Some (Return v) -> v = PyInt (Z.of_nat i + 1)).
Proof.
  rewrite next_times_shape. cbn [max current __init__].
  rewrite Z.sub_0_r, Z.add_0_l.
  split_and!; [done|lia|lia| |].
  - intros v [Hin|Hin]%elem_of_app.
    + apply list_elem_of_fmap in Hin as (x & [= ->] & Hx%elem_of_seqZ). lia.
    + apply elem_of_replicate in Hin as [[=] _].
  - intros i v Hi.
    destruct (decide (i < k `min` Z.to_nat m)%nat) as [Hlt|Hge].
    + rewrite lookup_app_l in Hi by (rewrite length_fmap, length_seqZ; lia).
      rewrite list_lookup_fmap, lookup_seqZ_lt in Hi by lia.
      cbn in Hi. injection Hi as <-. f_equal. lia.
    + rewrite lookup_app_r in Hi by (rewrite length_fmap, length_seqZ; lia).
      apply lookup_replicate in Hi as [[=] _].
Qed.

(** X10. A loop over a [CountUpIterator] starts from the state the object
    is in ([__iter__] returns the object itself): it gives the values after
    [current] up to [max] and leaves the object used up, so a second loop
    over it gives nothing. No other object is changed. *)
Theorem iterator_resumes_and_is_single_use
    (fuel fuel2 : nat) (l : loc) (h : gmap loc CountUpIterator)
    (self : CountUpIterator) :
  h !! l = Some self ->
  (Z.to_nat (max self - current self) < fuel)%nat ->
  exists h',
    drain fuel (__iter__ l) h =
      Some (PyInt <$> seqZ (current self + 1) (max self - current self), h') /\
    (forall l', l' <> l -> h' !! l' = h !! l') /\
    drain (S fuel2) (__iter__ l) h' = Some ([], h').
Proof.
  intros Hl Hfuel. unfold __iter__. eexists. split_and!.
  - by apply drain_spec.
  - intros l' Hne. by rewrite lookup_insert_ne.
  - erewrite drain_spec; [|apply lookup_insert_eq|cbn [max current]; lia].
    cbn [max current]. rewrite insert_insert_eq, seqZ_nil by lia.
    by replace (Z.max (Z.max (current self) (max self)) (max self))
      with (Z.max (current self) (max self)) by lia.
Qed.

Lemma iterator_resumes_and_is_single_use_witness :
  ({[ 0%nat := {| max := 3; current := 2 |} ]} : gmap loc CountUpIterator)
    !! 0%nat = Some {| max := 3; current := 2 |} /\
  (Z.to_nat (3 - 2) < 2)%nat /\
  exists h',
    drain 2 0%nat {[ 0%nat := {| max := 3; current := 2 |} ]} =
      Some ([PyInt 3], h') /\
    drain 1 0%nat h' = Some ([], h').
Proof.
  assert (({[ 0%nat := {| max := 3; current := 2 |} ]}
            : gmap loc CountUpIterator) !! 0%nat =
          Some {| max := 3; current := 2 |}) as Hl by apply lookup_singleton_eq.
  assert (Z.to_nat (3 - 2) < 2)%nat as Hf by (vm_compute; lia).
  split; [exact Hl|]. split; [exact Hf|].
  destruct (iterator_resumes_and_is_single_use 2 0 0%nat _ _ Hl Hf)
    as (h' & H1 & _ & H2).
  exists h'. split; [exact H1|exact H2].
Defined.

(** X11. Two iterators taken from the same [CountUpIterable] before either
    is used do not share state: using up the first leaves the second at
    its start, and each gives [[1, ..., m]]. *)
Theorem live_iterators_are_independent (m : Z) (fuel : nat)
    (h : gmap loc CountUpIterator) :
  (Z.to_nat m < fuel)%nat ->
  let self := {| iterable_max := m |} in
  let '(l1, h1) := iterable_iter self h in
  let '(l2, h2) := iterable_iter self h1 in
  exists h3 h4,
    drain fuel (__iter__ l1) h2 = Some (PyInt <$> seqZ 1 m, h3) /\
    h3 !! l2 = Some (__init__ m) /\
    drain fuel (__iter__ l2) h3 = Some (PyInt <$> seqZ 1 m, h4).
Proof.
  intros Hfuel self. subst self.
  unfold iterable_iter, alloc, __iter__. cbn [iterable_max].
  set (l1 := fresh (dom h)).
  set (h1 := <[l1 := __init__ m]> h).
  set (l2 := fresh (dom h1)).
  assert (l2 <> l1) as Hne.
  { intros Heq. pose proof (is_fresh (dom h1)) as Hfresh.
    fold l2 in Hfresh. rewrite Heq in Hfresh. apply Hfresh.
    apply elem_of_dom. exists (__init__ m). apply lookup_insert_eq. }
  assert (<[l2 := __init__ m]> h1 !! l1 = Some (__init__ m)) as Hl1.
  { rewrite lookup_insert_ne by done. apply lookup_insert_eq. }
  eexists _, _. split_and!.
  - erewrite drain_spec; [|exact Hl1|cbn; by rewrite Z.sub_0_r].
    cbn [max current __init__]. by rewrite Z.sub_0_r.
  - rewrite lookup_insert_ne by done. apply lookup_insert_eq.
  - rewrite (drain_spec fuel l2 _ (__init__ m)).
    + cbn [max current __init__]. by rewrite Z.sub_0_r.
    + rewrite lookup_insert_ne by done. apply lookup_insert_eq.
    + cbn. by rewrite Z.sub_0_r.
Qed.

Lemma live_iterators_are_independent_witness :
  (Z.to_nat 2 < 3)%nat /\
  exists h3 h4,
    drain 3 0%nat (<[1%nat := __init__ 2]> (<[0%nat := __init__ 2]> ∅)) =
      Some ([PyInt 1; PyInt 2], h3) /\
    h3 !! 1%nat = Some (__init__ 2) /\
    drain 3 1%nat h3 = Some ([PyInt 1; PyInt 2], h4).
Proof.
  assert (Z.to_nat 2 < 3)%nat as Hf by (vm_compute; lia).
  split; [exact Hf|].
  exact (live_iterators_are_independent 2 3 ∅ Hf).
Defined.

End CountUpRuns.

(** ** The registry, the listeners and [retry] *)

Module CallablesFacts.

Import Callables.

Section Facts.

Context {world args value exn : Type}.
Context (is_Exception : exn -> bool).
Context (key_error : string -> exn) (raise_none_error : exn).

(** The entry of a name after a series of registrations. *)
Lemma register_all_lookup (l : list (string * callable world args value exn))
    (registry : gmap string (callable world args value exn)) (name : string) :
  register_all l registry !! name =
    match last (filter (fun p => p.1 = name) l) with
    | Some p => Some p.2
    | None => registry !! name
    end.
Proof.
  unfold register_all. revert registry.
  induction l as [|[n fn] l IH]; intros registry; [done|].
  cbn [foldl]. rewrite IH, filter_cons. cbn [fst snd]. unfold register.
  destruct (decide (n = name)) as [->|Hne].
  - rewrite last_cons.
    destruct (last (filter (fun p => p.1 = name) l)); [done|].
    apply lookup_insert_eq.
  - destruct (last (filter (fun p => p.1 = name) l)); [done|].
    by apply lookup_insert_ne.
Qed.

(** X12. The registry is a map in which the last registration of a name
    wins: after any series of [register] calls, [run_command(name, ...)]
    calls the function registered last under [name], with the arguments it
    was given, and if [name] was never registered (so on the empty
    registry for every name) it raises [KeyError] with the name in the
    message and calls nothing. *)
Theorem run_command_after_registrations
    (l : list (string * callable world args value exn)) (name : string) (a : args) (w : world) :
  run_command key_error name a (register_all l ∅) w =
    match last (filter (fun p => p.1 = name) l) with
    | Some p => p.2 a w
    | None => (Raised (key_error ("命令未注册: " +:+ name)), w)
    end.
Proof.
  unfold run_command. rewrite register_all_lookup.
  destruct (last (filter (fun p => p.1 = name) l)); [done|].
  by rewrite lookup_empty.
Qed.

Lemma add_listeners_app (added ls : list (listener world exn)) :
  add_listeners added ls = ls ++ added.
Proof.
  unfold add_listeners, add_listener. revert ls.
  induction added as [|fn added IH]; intros ls; cbn [foldl].
  - by rewrite app_nil_r.
  - by rewrite IH, <- app_assoc.
Qed.

(** The loop does not look back: in front of the index, a listener only
    shows in the list returned. *)
Lemma emit_loop_cons (fuel : nat) (l0 : listener world exn)
    (ls : list (listener world exn)) (i : nat) (msg : string) (w : world) :
  emit_loop fuel (l0 :: ls) (S i) msg w =
    (fun x => (x.1, l0 :: x.2)) <$> emit_loop fuel ls i msg w.
Proof.
  revert ls i w. induction fuel as [|fuel IH]; intros ls i w; [done|].
  cbn [emit_loop lookup list_lookup].
  destruct (ls !! i) as [l|]; [|done].
  destruct (call l msg w) as [[[u|e] w'] added].
  - rewrite !add_listeners_app. apply IH.
  - by rewrite !add_listeners_app.
Qed.

Lemma emit_event_returned (fuel : nat) (l : listener world exn)
    (ls added : list (listener world exn)) (msg : string) (w w' : world)
    (u : unit) :
  call l msg w = (Returned u, w', added) ->
  emit_event (S fuel) (l :: ls) msg w =
    (fun x => (x.1, l :: x.2)) <$> emit_event fuel (ls ++ added) msg w'.
Proof.
  intros Hcall. unfold emit_event. cbn [emit_loop lookup list_lookup].
  rewrite Hcall, add_listeners_app. apply emit_loop_cons.
Qed.

(** X13. [emit_event] goes through the module's list as it is while the
    loop runs. It calls the listener at the head; if that call returns, it
    goes on, in the world the call left, with the rest of the list followed
    by the listeners the call added, so a listener added during the event is
    called in the same event, after those already there. It stops at the
    first listener that raises, and with no listeners it returns [None]. If
    no listener adds one, the event ends and leaves the list as it was. *)
Theorem emit_event_in_order (fuel : nat) (l : listener world exn)
    (ls : list (listener world exn)) (msg : string) (w : world) :
  emit_event (S fuel) (@nil (listener world exn)) msg w =
    Some (Returned tt, w, []) /\
  (forall (u : unit) (w' : world) (added : list (listener world exn)),
     call l msg w = (Returned u, w', added) ->
     emit_event (S fuel) (l :: ls) msg w =
       (fun x => (x.1, l :: x.2)) <$> emit_event fuel (ls ++ added) msg w') /\
  (forall (e : exn) (w' : world) (added : list (listener world exn)),
     call l msg w = (Raised e, w', added) ->
     emit_event (S fuel) (l :: ls) msg w =
       Some (Raised e, w', l :: ls ++ added)) /\
  (Forall (fun l' => forall w0, (call l' msg w0).2 = []) ls ->
   (length ls <= fuel)%nat ->
   exists (r : called unit exn) (w' : world),
     emit_event (S fuel) ls msg w = Some (r, w', ls)).
Proof.
  split_and!.
  - done.
  - intros u w' added Hcall.
    exact (emit_event_returned fuel l ls added msg w w' u Hcall).
  - intros e w' added Hcall. unfold emit_event.
    cbn [emit_loop lookup list_lookup]. by rewrite Hcall, add_listeners_app.
  - intros Hq. clear l. revert fuel w.
    induction Hq as [|l ls Hl Hls IH]; intros fuel w Hfuel; [by eexists _, _|].
    cbn [length] in Hfuel. destruct fuel as [|fuel]; [lia|].
    specialize (Hl w).
    destruct (call l msg w) as [[[u|e] w'] added] eqn:Hcall;
      cbn [snd] in Hl; subst added.
    + rewrite (emit_event_returned (S fuel) l ls [] msg w w' u Hcall).
      rewrite app_nil_r.
      destruct (IH fuel w') as (r & w'' & ->); [lia|]. by eexists _, _.
    + unfold emit_event. cbn [emit_loop lookup list_lookup].
      rewrite Hcall, add_listeners_app, app_nil_r. by eexists _, _.
Qed.

(** The loop of [retry] with at least one round left: it ends with the call
    that first returned or raised something not caught, or with the last
    call. *)
Lemma retry_loop_spec (fn : callable world args value exn) (a : args) (n : nat)
    (last_exc : option exn) (w : world) :
  exists k : nat,
    (k <= n)%nat /\
    retry_loop is_Exception raise_none_error fn a (S n) last_exc w =
      call_again fn a k w /\
    (forall j : nat,
       (j < k)%nat -> caught is_Exception (call_again fn a j w).1 = true) /\
    ((k < n)%nat -> caught is_Exception (call_again fn a k w).1 = false).
Proof.
  revert last_exc w. induction n as [|n IH]; intros last_exc w.
  - exists 0%nat. split_and!; [lia| |lia|lia].
    cbn [retry_loop call_again].
    destruct (fn a w) as [[v|e] w1]; [done|]. by destruct (is_Exception e).
  - destruct (fn a w) as [[v|e] w1] eqn:Hfn.
    + exists 0%nat. cbn [retry_loop call_again]. rewrite Hfn.
      split_and!; [lia|done|lia|done].
    + destruct (is_Exception e) eqn:He.
      * destruct (IH (Some e) w1) as (k & Hk & Hrun & Hbefore & Hat).
        exists (S k). cbn [call_again]. rewrite Hfn. cbn [snd].
        split_and!; [lia| | |].
        -- rewrite <- Hrun. cbn [retry_loop]. by rewrite Hfn, He.
        -- intros [|j] Hj; cbn [call_again]; rewrite Hfn; [done|].
           cbn [snd]. apply Hbefore. lia.
        -- intros Hlt. apply Hat. lia.
      * exists 0%nat. cbn [retry_loop call_again]. rewrite Hfn, He.
        split_and!; [lia|done|lia|]. intros _. cbn. exact He.
Qed.

(** X14. [retry(times)(fn)] with [times >= 1] calls [fn] again with the
    same arguments as long as it raises an [Exception], at most [times]
    times: its result is that of the first call that returns or raises
    something else, or that of call number [times] if none does. With
    [times <= 0] it never calls [fn] and raises the [TypeError] of
    [raise None]. *)
Theorem retry_spec (times : Z) (fn : callable world args value exn) (a : args) (w : world) :
  (times <= 0 ->
     retry is_Exception raise_none_error times fn a w =
       (Raised raise_none_error, w)) /\
  (0 < times ->
     exists k : nat,
       (k < Z.to_nat times)%nat /\
       retry is_Exception raise_none_error times fn a w =
         call_again fn a k w /\
       (forall j : nat,
          (j < k)%nat -> caught is_Exception (call_again fn a j w).1 = true) /\
       ((S k < Z.to_nat times)%nat ->
          caught is_Exception (call_again fn a k w).1 = false)).
Proof.
  unfold retry. split.
  - intros Ht. by replace (Z.to_nat times) with 0%nat by lia.
  - intros Ht. destruct (Z.to_nat times) as [|n] eqn:En; [lia|].
    destruct (retry_loop_spec fn a n None w) as (k & Hk & Hrun & Hb & Hat).
    exists k. split_and!; [lia|done|done|]. intros Hlt. apply Hat. lia.
Qed.

End Facts.

(** A function that fails twice, then returns its call count times ten. *)
Example retry_third_call_succeeds :
  retry (fun _ : string => true) "raise None" 3
    (fun (x : Z) (calls : nat) =>
       if (calls <? 2)%nat then (Raised "random fail", S calls)
       else (Returned (x * 10), S calls)) 3 0%nat =
    (Returned 30, 3%nat) /\
  retry (fun _ : string => true) "raise None" 2
    (fun (x : Z) (calls : nat) =>
       if (calls <? 2)%nat then (Raised "random fail", S calls)
       else (Returned (x * 10), S calls)) 3 0%nat =
    (Raised "random fail", 2%nat) /\
  retry (fun _ : string => true) "raise None" 0
    (fun (x : Z) (calls : nat) =>
       if (calls <? 2)%nat then (Raised "random fail", S calls)
       else (Returned (x * 10), S calls)) 3 0%nat =
    (Raised "raise None", 0%nat).
Proof. split_and!; reflexivity. Qed.

Lemma retry_spec_witness :
  0 < 3 /\
  exists k : nat,
    (k < Z.to_nat 3)%nat /\
    retry (fun _ : string => true) "raise None" 3
      (fun (x : Z) (calls : nat) =>
         if (calls <? 2)%nat then (Raised "random fail", S calls)
         else (Returned (x * 10), S calls)) 3 0%nat =
    call_again
      (fun (x : Z) (calls : nat) =>
         if (calls <? 2)%nat then (Raised "random fail", S calls)
         else (Returned (x * 10), S calls)) 3 k 0%nat.
Proof.
  assert (0 < 3) as H by lia.
  split; [exact H|].
  destruct (proj2 (retry_spec (fun _ : string => true) "raise None" 3
    (fun (x : Z) (calls : nat) =>
       if (calls <? 2)%nat then (Raised "random fail", S calls)
       else (Returned (x * 10), S calls)) 3 0%nat) H) as (k & Hk & Hrun & _).
  exists k. split; [exact Hk|exact Hrun].
Defined.

(** A listener that adds another one during the event. *)
Lemma emit_event_in_order_witness :
  call (Listener (fun (m : string) (w : list string) =>
          (Returned tt, w ++ ["l1 got " +:+ m],
           [Listener (fun (m' : string) (w' : list string) =>
              (@Returned unit Empty_set tt, w' ++ ["l2 got " +:+ m'], []))])))
    "hi" [] =
    (Returned tt, ["l1 got hi"],
     [Listener (fun (m' : string) (w' : list string) =>
        (@Returned unit Empty_set tt, w' ++ ["l2 got " +:+ m'], []))]) /\
  fst <$> emit_event 3
     [Listener (fun (m : string) (w : list string) =>
        (Returned tt, w ++ ["l1 got " +:+ m],
         [Listener (fun (m' : string) (w' : list string) =>
            (@Returned unit Empty_set tt, w' ++ ["l2 got " +:+ m'], []))]))]
     "hi" [] =
    Some (Returned tt, ["l1 got hi"; "l2 got hi"]).
Proof.
  split; [reflexivity|].
  destruct (emit_event_in_order 2
    (Listener (fun (m : string) (w : list string) =>
          (Returned tt, w ++ ["l1 got " +:+ m],
           [Listener (fun (m' : string) (w' : list string) =>
              (@Returned unit Empty_set tt, w' ++ ["l2 got " +:+ m'], []))])))
    [] "hi" []) as (_ & Hret & _).
  rewrite (Hret tt ["l1 got hi"] _ eq_refl). reflexivity.
Defined.

End CallablesFacts.

(** ** [my_decorator] and [repeat] *)

Module DecoratorsFacts.

Import Callables Decorators.

Section Facts.

Context {world args exn : Type}.

(** X15. Decorating with [my_decorator] [n + 1] times puts [n + 1] lines
    before the output of the function and, if it returns, [n + 1] lines
    after it; the decorated function returns [None] whatever the function
    returned. If the function raises, the exception comes out unchanged
    and no line is printed after. *)
Theorem my_decorator_nests {V : Type} (n : nat)
    (func : world -> called V exn * world * stdout) (w : world) :
  Nat.iter n my_decorator (my_decorator func) w =
    match func w with
    | (Returned _, w', out) =>
        (Returned tt, w',
         replicate (S n) before_line ++ out ++ replicate (S n) after_line)
    | (Raised e, w', out) =>
        (Raised e, w', replicate (S n) before_line ++ out)
    end.
Proof.
  induction n as [|n IH].
  - cbn [Nat.iter nat_rect]. unfold my_decorator.
    by destruct (func w) as [[[v|e] w'] out].
  - cbn [Nat.iter nat_rect]. fold (Nat.iter n (my_decorator (world := world)
      (exn := exn) (V := unit)) (my_decorator func)).
    unfold my_decorator at 1. rewrite IH.
    destruct (func w) as [[[v|e] w'] out]; [|done].
    rewrite (replicate_S_end (S n) after_line), (replicate_S (S n) before_line).
    by rewrite <- !app_assoc.
Qed.

Lemma repeat_loop_stateless {V : Type}
    (func : args -> world -> called V exn * world * stdout)
    (a : args) (v : V) (out : stdout) (i : Z) (n : nat) (w : world) :
  (forall w', func a w' = (Returned v, w', out)) ->
  repeat_loop func a i n w =
    (Returned tt, w,
     flat_map (fun j => round_line j :: out) (seqZ i (Z.of_nat n))).
Proof.
  intros Hfunc. revert i. induction n as [|n IH]; intros i; [done|].
  cbn [repeat_loop]. rewrite Hfunc, IH.
  rewrite (seqZ_cons i) by lia. cbn [flat_map app].
  replace (Z.pred (Z.of_nat (S n))) with (Z.of_nat n) by lia.
  by replace (Z.succ i) with (i + 1) by lia.
Qed.

(** X16. For a function that, with the arguments given, always ends the
    same way, prints the same lines and leaves the world as it was,
    [repeat(times)(func)] prints [times] rounds, each the numbered line of
    the round ([1], [2], ...) followed by the lines of the function, and
    returns [None]; with [times <= 0] it prints nothing. If the function
    raises, the first round is the only one and the exception comes out. *)
Theorem repeat_stateless {V : Type} (times : Z)
    (func : args -> world -> called V exn * world * stdout)
    (a : args) (r : called V exn) (out : stdout) (w : world) :
  (forall w', func a w' = (r, w', out)) ->
  repeat times func a w =
    match r with
    | Returned _ =>
        (Returned tt, w,
         flat_map (fun j => round_line j :: out) (seqZ 0 times))
    | Raised e =>
        if decide (0 < times) then (Raised e, w, round_line 0 :: out)
        else (Returned tt, w, [])
    end.
Proof.
  intros Hfunc. unfold repeat. destruct r as [v|e].
  - rewrite (repeat_loop_stateless func a v out) by done.
    destruct (decide (0 <= times)) as [Hpos|Hneg].
    + by rewrite Z2Nat.id.
    + replace (Z.to_nat times) with 0%nat by lia.
      by rewrite !seqZ_nil by lia.
  - destruct (decide (0 < times)) as [Hpos|Hneg].
    + destruct (Z.to_nat times) as [|n] eqn:En; [lia|].
      cbn [repeat_loop]. by rewrite Hfunc.
    + by replace (Z.to_nat times) with 0%nat by lia.
Qed.

End Facts.

Lemma repeat_stateless_witness :
  (forall w' : unit,
     greet (exn := Empty_set) "小明" w' =
       (Returned tt, w', ["  你好，小明！"])) /\
  repeat 2 (greet (exn := Empty_set)) "小明" tt =
    (Returned tt, tt,
     ["第 1 次执行:"; "  你好，小明！"; "第 2 次执行:"; "  你好，小明！"]).
Proof.
  assert (forall w' : unit,
     greet (exn := Empty_set) "小明" w' =
       (Returned tt, w', ["  你好，小明！"])) as H by reflexivity.
  split; [exact H|].
  exact (repeat_stateless 2 greet "小明" (Returned tt) _ tt H).
Defined.

End DecoratorsFacts.
